(** * Eclipse Soundscapes video analysis: circle tracking and intensity sampling

    A shallow embedding of [stabilization.py] and [video_analysis.py].

    Conventions of the embedding.
    - Python integers are [Z]; list positions and array extents are [nat].
    - A NumPy float is represented by the rational number it denotes ([Q]);
      the results of [math.cos], [math.sin] and of the float product are
      parameters of the sampling code, since they belong to the platform's
      libm and not to this program.  Means are computed exactly in [Q].
    - A Python exception is a value of [exn]; code that can raise runs in
      the error monad [result].
    - The array handed to the circle loops is [circles] after
      [np.uint16(np.around(circles))]; [cv2.HoughCircles] returns [None]
      when it finds nothing, which is the empty list here.
    - Of the progress display the [max_value] a bar is created with and the
      range check of [bar.update] are kept (they are where [fps] goes);
      [time.sleep], [print], the drawing calls and [cv2.imshow] are left
      out. *)

From Stdlib Require Import String.
From Stdlib Require Import ZArith QArith Qround List Bool Lia.
Import ListNotations.

Set Implicit Arguments.

Open Scope Z_scope.

(** ** Python base layer *)

Module Py.

Inductive exn : Type :=
| IndexError
| ZeroDivisionError
| ValueError.

Inductive result (A : Type) : Type :=
| Ok (a : A)
| Raise (e : exn).

Arguments Ok {A} a.
Arguments Raise {A} e.

Definition bind {A B : Type} (m : result A) (k : A -> result B) : result B :=
  match m with
  | Ok a => k a
  | Raise e => Raise e
  end.

(** [for v in xs: out.append(body v)], stopping at the first exception. *)
Fixpoint for_append {A B : Type} (body : A -> result B) (xs : list A)
  : result (list B) :=
  match xs with
  | [] => Ok []
  | v :: rest =>
      bind (body v) (fun b =>
      bind (for_append body rest) (fun bs => Ok (b :: bs)))
  end.

(** [for v in xs: if cond v: out.append(body v)]; the test can raise too. *)
Fixpoint for_if_append {A B : Type} (cond : A -> result bool)
    (body : A -> result B) (xs : list A) : result (list B) :=
  match xs with
  | [] => Ok []
  | v :: rest =>
      bind (cond v) (fun c =>
      if c then
        bind (body v) (fun b =>
        bind (for_if_append cond body rest) (fun bs => Ok (b :: bs)))
      else for_if_append cond body rest)
  end.

(** [range(a, b)]. *)
Definition range (a b : Z) : list Z :=
  map (fun k => a + Z.of_nat k) (seq 0 (Z.to_nat (b - a))).

(** [a % b] on integers: the sign follows the divisor, as [Z.modulo] does. *)
Definition mod_ (a b : Z) : result Z :=
  if b =? 0 then Raise ZeroDivisionError else Ok (a mod b).

(** [i % compress == 0]. *)
Definition divisible (compress i : Z) : result bool :=
  bind (mod_ i compress) (fun m => Ok (m =? 0)).

(** [int(v)] on a float: the fractional part is dropped (toward zero). *)
Definition int (v : Q) : Z := Z.quot (Qnum v) (Zpos (Qden v)).

(** [sum(l)] on numbers. *)
Definition sum (l : list Q) : Q := fold_left Qplus l 0%Q.

(** [sum(l)/len(l)] where [l] is a Python list: an empty list divides the
    integer 0 by the integer 0. *)
Definition sum_div_len (l : list Q) : result Q :=
  match l with
  | [] => Raise ZeroDivisionError
  | _ => Ok (sum l / inject_Z (Z.of_nat (length l)))%Q
  end.

(** [a.mean()] over a NumPy axis of the listed values. *)
Definition mean (l : list Q) : Q :=
  (sum l / inject_Z (Z.of_nat (length l)))%Q.

(** Index [i] on a NumPy axis of extent [n]: a negative index counts from
    the end, anything beyond either end raises. *)
Definition np_index (n : nat) (i : Z) : result nat :=
  if (0 <=? i) && (i <? Z.of_nat n) then Ok (Z.to_nat i)
  else if (- Z.of_nat n <=? i) && (i <? 0) then Ok (Z.to_nat (Z.of_nat n + i))
  else Raise IndexError.

(** [bar.update(value)] on a [progressbar.ProgressBar(max_value=...)],
    whose [min_value] is 0: a value outside the range of the bar raises. *)
Definition bar_update (max_value value : Z) : result unit :=
  if (0 <=? value) && (value <=? max_value) then Ok tt
  else Raise ValueError.

(** [l[k]] on a Python list with [k >= 0]. *)
Definition list_get {A : Type} (l : list A) (k : nat) : result A :=
  match nth_error l k with
  | Some a => Ok a
  | None => Raise IndexError
  end.

End Py.

Import Py.

Notation "x <- m ;; k" := (Py.bind m (fun x => k))
  (at level 61, m at next level, right associativity).

(** One row [[x, y, radius]] of the rounded detector array; the same shape
    is used by the script for its [coord] lists. *)
Record Coord : Type := mkCoord { cx : Z; cy : Z; cradius : Z }.

(** ** stabilization.py: the tracking loop *)

Module Stabilization.

(** The variables of the script that survive from one frame to the next.
    [coord] and [radius] are unbound before the first frame. *)
Record State : Type := mkState {
  circle_coords : list Coord;
  coord : option Coord;
  radius : option Z;
  frame_num : nat
}.

Definition init : State :=
  {| circle_coords := []; coord := None; radius := None; frame_num := 0 |}.

(** Lines 65-75, one turn of [for i in circles[0,:]]. *)
Definition loop_body (st : State) (i : Coord) : State :=
  let radius' := cradius i in
  let coord' := mkCoord (cx i) (cy i) (cradius i) in
  {| circle_coords := circle_coords st ++ [coord'];
     coord := Some coord';
     radius := Some radius';
     frame_num := frame_num st |}.

(** Lines 63-86 for one frame that was read ([ret == True]). *)
Definition frame_step (st : State) (circles : list Coord) : State :=
  let st1 :=
    match circles with
    | _ :: _ => fold_left loop_body circles st
    | [] =>
        match circle_coords st with
        | [] =>
            let coord' := mkCoord 680 630 280 in
            {| circle_coords := circle_coords st;
               coord := Some coord';
               radius := Some (cradius coord');
               frame_num := frame_num st |}
        | c0 :: tl =>
            let coord' := last (c0 :: tl) c0 in
            {| circle_coords := circle_coords st ++ [coord'];
               coord := Some coord';
               radius := Some (cradius coord');
               frame_num := frame_num st |}
        end
    end in
  {| circle_coords := circle_coords st1;
     coord := coord st1;
     radius := radius st1;
     frame_num := S (frame_num st1) |}.

(** The state after the first [k] frames of a video whose frames give the
    detector outputs [video]. *)
Definition run_frames (video : list (list Coord)) (k : nat) : State :=
  fold_left frame_step (firstn k video) init.

(** The estimate in force while frame [k] is processed: the value of
    [coord] at line 89 of that turn. *)
Definition estimate (video : list (list Coord)) (k : nat) : option Coord :=
  coord (run_frames video (S k)).

(** What [np.savetxt("circle_coords.txt", circle_coords)] writes once the
    video is exhausted. *)
Definition saved_circle_coords (video : list (list Coord)) : list Coord :=
  circle_coords (run_frames video (length video)).

(** What [coord] can be in terms of [circle_coords]: unbound or the default
    while nothing was stored, the last stored row afterwards. *)
Definition tracked (st : State) : Prop :=
  match circle_coords st with
  | [] => coord st = None \/ coord st = Some (mkCoord 680 630 280)
  | c0 :: tl => coord st = Some (last (c0 :: tl) c0)
  end.

(** Lines 89-96: the region of interest around the estimate.  The rows of
    the detector array are 16-bit NumPy scalars; NumPy 1.x carries a scalar
    operation between such a value and a Python integer out on 64-bit
    integers, so the sums below are exact.  The result is [(x, y, w, h)]. *)
Definition roi (coord : Coord) (radius : Z) : Z * Z * Z * Z :=
  let x := -1 * radius - 100 + cx coord in
  let y := -1 * radius - 100 + cy coord in
  let w := radius + 100 + cx coord - (-1 * radius - 100 + cx coord) in
  let h := radius + 100 + cy coord - (-1 * radius - 100 + cy coord) in
  let y := if y <? 0 then 0 else y in
  let x := if x <? 0 then 0 else x in
  (x, y, w, h).

(** A bound [a] of a slice [a:b] on an axis of extent [n]: negative bounds
    count from the end, and every bound is clipped to the axis. *)
Definition slice_bound (n a : Z) : Z :=
  if a <? 0 then Z.max (a + n) 0 else Z.min a n.

(** Whether position [i] belongs to the slice [a:b] of an axis of extent
    [n]. *)
Definition in_slice (n a b i : Z) : bool :=
  (slice_bound n a <=? i) && (i <? slice_bound n b).

(** Lines 97-98: [mask = np.zeros(frame.shape, np.uint8)] followed by
    [mask[y:y+h,x:x+w] = frame[y:y+h,x:x+w]], for a frame of shape
    [(shape0, shape1, 3)] with pixel values [frame row column channel]. *)
Definition mask (shape0 shape1 : nat) (frame : nat -> nat -> nat -> Z)
    (x y w h : Z) (row col ch : nat) : Z :=
  if in_slice (Z.of_nat shape0) y (y + h) (Z.of_nat row)
     && in_slice (Z.of_nat shape1) x (x + w) (Z.of_nat col)
  then frame row col ch
  else 0.

End Stabilization.

(** ** video_analysis.py *)

Module VideoAnalysis.

(** A decoded frame: an array of shape [(shape0, shape1, 3)] of 8-bit
    values, [px row column channel]. *)
Record Frame : Type := mkFrame {
  shape0 : nat;
  shape1 : nat;
  px : nat -> nat -> nat -> Z
}.

Definition channels : list nat := [0; 1; 2]%nat.

(** What the functions use of [VideoFileClip(filename)]. *)
Record Clip : Type := mkClip {
  filename : string;
  duration : Q;
  iter_frames : Q -> list Frame;
  get_frame : Q -> Frame
}.

(** What a function leaves behind: the value it returns, the tables handed
    to [np.savetxt] (file name, rows), and the [max_value] its progress bar
    was created with, when it has one. *)
Record Outcome (A : Type) : Type := mkOutcome {
  returned : A;
  saved : list (string * list (list Q));
  bar_max_value : option Z
}.

(** [filename[0:-4]]. *)
Definition stem (name : string) : string :=
  String.substring 0 (String.length name - 4) name.

Definition savetxt (prefix : string) (c : Clip) (rows : list (list Q))
  : string * list (list Q) :=
  (String.append prefix (stem (filename c)), rows).

(** [int(length*fps)+1]. *)
Definition bar_max (c : Clip) (fps : Q) : Z :=
  Py.int (duration c * fps) + 1.

Definition column (l : list Q) : list (list Q) := map (fun v => [v]) l.

(** Lines 53-57 for one frame, given the rounded detector array
    [circles] of that frame. *)
Definition center_step (coords : list (Z * Z)) (circles : list Coord)
  : list (Z * Z) :=
  match circles with
  | [] => coords
  | c0 :: tl =>
      (* the loop variable keeps its last value after the [for] *)
      let i := fold_left (fun _ i => i) (c0 :: tl) c0 in
      coords ++ [(cx i, cy i)]
  end.

(** [coords] after a run over frames with the given detector arrays. *)
Definition centers (detections : list (list Coord)) : list (Z * Z) :=
  fold_left center_step detections [].

Section Detector.

(** Lines 50-54: grayscale conversion, [cv2.HoughCircles] with the fixed
    parameters of this module, rounding and the cast to 16 bits. *)
Variable hough_circles : Frame -> list Coord.

(** Lines 45-57: the frame loop, with the counter and the bar. *)
Fixpoint center_loop (max_value : Z) (frames : list Frame) (frame_num : Z)
    (coords : list (Z * Z)) : result (list (Z * Z)) :=
  match frames with
  | [] => Ok coords
  | frame :: rest =>
      let frame_num := frame_num + 1 in
      u <- Py.bar_update max_value frame_num ;;
      center_loop max_value rest frame_num
        (center_step coords (hough_circles frame))
  end.

Definition find_center_circle_pos (c : Clip) (fps : Q)
  : result (list (Z * Z)) :=
  center_loop (bar_max c fps) (iter_frames c fps) 0 [].

End Detector.

(** *** Channel and row/column averages *)

Definition val (fr : Frame) (y x ch : nat) : Q := inject_Z (px fr y x ch).

(** [frame[:,:,:].mean(axis=0).mean(axis=0)], entry [ch]. *)
Definition rgb_values (fr : Frame) (ch : nat) : Q :=
  Py.mean (map (fun x =>
    Py.mean (map (fun y => val fr y x ch) (seq 0 (shape0 fr))))
    (seq 0 (shape1 fr))).

Definition find_RGB_Hues (c : Clip) (save : bool) (fps : Q)
  : Outcome (list Q * list Q * list Q) :=
  let frames := iter_frames c 1 in
  let red_array := map (fun fr => rgb_values fr 0%nat) frames in
  let green_array := map (fun fr => rgb_values fr 1%nat) frames in
  let blue_array := map (fun fr => rgb_values fr 2%nat) frames in
  {| returned := (red_array, green_array, blue_array);
     saved :=
       if save then
         [savetxt "red_array_"%string c (column red_array);
          savetxt "green_array_"%string c (column green_array);
          savetxt "blue_array_"%string c (column blue_array)]
       else [];
     bar_max_value := None |}.

(** [frame[i,:,:].mean(axis=0).mean(axis=0)]. *)
Definition row_value (fr : Frame) (i : Z) : Q :=
  Py.mean (map (fun ch =>
    Py.mean (map (fun x => val fr (Z.to_nat i) x ch) (seq 0 (shape1 fr))))
    channels).

(** [frame[:,j,:].mean(axis=0).mean(axis=0)]. *)
Definition col_value (fr : Frame) (j : Z) : Q :=
  Py.mean (map (fun ch =>
    Py.mean (map (fun y => val fr y (Z.to_nat j) ch) (seq 0 (shape0 fr))))
    channels).

(** Lines 160-172: the two profiles of one frame. *)
Definition y_array_one_frame (fr : Frame) : list Q :=
  map (row_value fr) (Py.range 0 (Z.of_nat (shape0 fr))).

Definition x_array_one_frame (fr : Frame) : list Q :=
  map (col_value fr) (Py.range 0 (Z.of_nat (shape1 fr))).

(** Lines 234-248: the same with [if i%compress == 0]. *)
Definition y_array_one_frame_compressed (compress : Z) (fr : Frame)
  : result (list Q) :=
  Py.for_if_append (Py.divisible compress) (fun i => Ok (row_value fr i))
    (Py.range 0 (Z.of_nat (shape0 fr))).

Definition x_array_one_frame_compressed (compress : Z) (fr : Frame)
  : result (list Q) :=
  Py.for_if_append (Py.divisible compress) (fun j => Ok (col_value fr j))
    (Py.range 0 (Z.of_nat (shape1 fr))).

(** [np.arange(0, len(total[0]))]; an empty table has no row 0. *)
Definition position_array (total : list (list Q)) : result (list Z) :=
  row0 <- Py.list_get total 0 ;;
  Ok (Py.range 0 (Z.of_nat (length row0))).

Definition XY : Type := list (list Q) * list (list Q) * list Z * list Z.

Definition xy_outcome (c : Clip) (save : bool) (fps : Q)
    (x_total_array y_total_array : list (list Q)) : result (Outcome XY) :=
  x_position_array <- position_array x_total_array ;;
  y_position_array <- position_array y_total_array ;;
  Ok {| returned :=
          (x_total_array, y_total_array, x_position_array, y_position_array);
        saved :=
          if save then
            [savetxt "x_array_"%string c x_total_array;
             savetxt "y_array_"%string c y_total_array]
          else [];
        bar_max_value := Some (bar_max c fps) |}.

(** The frames of a loop with the value [frame_num] has when each one is
    taken up. *)
Definition numbered (frames : list Frame) : list (nat * Frame) :=
  combine (seq 0 (length frames)) frames.

(** [frame_num += 1] followed by [bar.update(frame_num)]. *)
Definition count_frame (max_value : Z) (frame_num : nat) : result unit :=
  Py.bar_update max_value (Z.of_nat frame_num + 1).

Definition find_xy_intensities (c : Clip) (save : bool) (fps : Q)
  : result (Outcome XY) :=
  let max_value := bar_max c fps in
  let frames := iter_frames c fps in
  totals <- Py.for_append (fun '(frame_num, fr) =>
      let y_one := y_array_one_frame fr in
      let x_one := x_array_one_frame fr in
      u <- count_frame max_value frame_num ;;
      Ok (x_one, y_one)) (numbered frames) ;;
  xy_outcome c save fps (map fst totals) (map snd totals).

Definition find_xy_intensities_compressed (c : Clip) (compress : Z)
    (save : bool) (fps : Q) : result (Outcome XY) :=
  let max_value := bar_max c fps in
  let frames := iter_frames c 1 in
  totals <- Py.for_append (fun '(frame_num, fr) =>
      y_one <- y_array_one_frame_compressed compress fr ;;
      x_one <- x_array_one_frame_compressed compress fr ;;
      u <- count_frame max_value frame_num ;;
      Ok (x_one, y_one)) (numbered frames) ;;
  xy_outcome c save fps (map fst totals) (map snd totals).

(** *** Polar sampling *)

(** Lines 308-309: [rc] and [rs] are the floats [r*math.cos(degree)] and
    [r*math.sin(degree)]; the result is [(x_new, y_new)]. *)
Definition offset_coord (x y : Z) (rc rs : Q) : Z * Z :=
  let x_new := x + Py.int rc in
  let y_new := y + Py.int rs in
  (x_new, y_new).

(** Lines 310-311; [height] is [clip.get_frame(0).shape[0]]. *)
Definition clamp_y (height y_new : Z) : Z :=
  if y_new >=? height then height - 1 else y_new.

(** Lines 308-311: the index pair [(y_new, x_new)] used at line 312. *)
Definition sample_coord (x y : Z) (rc rs : Q) (height : Z) : Z * Z :=
  let '(x_new, y_new) := offset_coord x y rc rs in
  let y_new := clamp_y height y_new in
  (y_new, x_new).

(** [frame[y_new,x_new,:]]. *)
Definition frame_get (fr : Frame) (y_new x_new : Z) : result (list Q) :=
  yi <- Py.np_index (shape0 fr) y_new ;;
  xi <- Py.np_index (shape1 fr) x_new ;;
  Ok (map (val fr yi xi) channels).

(** Lines 308-313 ([data.mean(axis=0)] averages the three channels). *)
Definition intensity_data (fr : Frame) (x y : Z) (rc rs : Q) (height : Z)
  : result Q :=
  let '(y_new, x_new) := sample_coord x y rc rs height in
  data <- frame_get fr y_new x_new ;;
  Ok (Py.mean data).

Section Polar.

Variable hough_circles : Frame -> list Coord.

(** [math.cos(math.radians(i))], [math.sin(math.radians(i))] and the float
    product of an integer with a float, as this platform computes them. *)
Variable fcos fsin : Z -> Q.
Variable fmul : Z -> Q -> Q.

Definition sample (fr : Frame) (x y height i r : Z) : result Q :=
  intensity_data fr x y (fmul r (fcos i)) (fmul r (fsin i)) height.

(** Lines 305-315: the average along the ray of angle [i]. *)
Definition ray_average (fr : Frame) (x y radius height i : Z) : result Q :=
  intensity <- Py.for_append (sample fr x y height i) (Py.range 1 radius) ;;
  Py.sum_div_len intensity.

(** Lines 369-379: the average around the ring of radius [r]. *)
Definition ring_average (fr : Frame) (x y height r : Z) : result Q :=
  intensity <- Py.for_append (fun i => sample fr x y height i r)
                 (Py.range 0 360) ;;
  Py.sum_div_len intensity.

(** [frame_intensity] of one frame in the four functions. *)
Definition angle_frame (radius height : Z) (fr : Frame) (x y : Z)
  : result (list Q) :=
  Py.for_append (ray_average fr x y radius height) (Py.range 0 360).

Definition radius_frame (radius height : Z) (fr : Frame) (x y : Z)
  : result (list Q) :=
  Py.for_append (ring_average fr x y height) (Py.range 1 radius).

Definition angle_frame_compressed (compress radius height : Z) (fr : Frame)
    (x y : Z) : result (list Q) :=
  Py.for_if_append (Py.divisible compress)
    (ray_average fr x y radius height) (Py.range 0 360).

Definition radius_frame_compressed (compress radius height : Z) (fr : Frame)
    (x y : Z) : result (list Q) :=
  Py.for_if_append (Py.divisible compress)
    (ring_average fr x y height) (Py.range 1 radius).

(** The frame loop shared by the four functions: the bar is created from
    [fps], the centres are those of [find_center_circle_pos(filename,
    fps=1)], the centre of frame number [frame_num] is [coords[frame_num]],
    and the bar is updated at the end of each frame. *)
Definition frame_loop (c : Clip) (fps : Q)
    (frame_intensity : Z -> Frame -> Z -> Z -> result (list Q))
  : result (list (list Q)) :=
  let max_value := bar_max c fps in
  coords <- find_center_circle_pos hough_circles c 1 ;;
  let frames := iter_frames c 1 in
  let height := Z.of_nat (shape0 (get_frame c 0)) in
  Py.for_append (fun '(frame_num, frame) =>
      xy <- Py.list_get coords frame_num ;;
      row <- frame_intensity height frame (fst xy) (snd xy) ;;
      u <- count_frame max_value frame_num ;;
      Ok row)
    (numbered frames).

Definition polar_outcome (c : Clip) (prefix : string) (save : bool) (fps : Q)
    (tot : list (list Q)) : Outcome (list (list Q)) :=
  {| returned := tot;
     saved := if save then [savetxt prefix c tot] else [];
     bar_max_value := Some (bar_max c fps) |}.

Definition find_angle_intensity (c : Clip) (radius : Z) (fps : Q)
    (save : bool) : result (Outcome (list (list Q))) :=
  intensity_tot_angle <- frame_loop c fps (angle_frame radius) ;;
  Ok (polar_outcome c "angular" save fps intensity_tot_angle).

Definition find_radius_intensity (c : Clip) (radius : Z) (fps : Q)
    (save : bool) : result (Outcome (list (list Q))) :=
  intensity_tot <- frame_loop c fps (radius_frame radius) ;;
  Ok (polar_outcome c "radial" save fps intensity_tot).

Definition find_angle_intensity_compressed (c : Clip) (radius compress : Z)
    (fps : Q) (save : bool) : result (Outcome (list (list Q))) :=
  intensity_tot_angle <-
    frame_loop c fps (angle_frame_compressed compress radius) ;;
  Ok (polar_outcome c "angular" save fps intensity_tot_angle).

Definition find_radius_intensity_compressed (c : Clip) (radius compress : Z)
    (fps : Q) (save : bool) : result (Outcome (list (list Q))) :=
  intensity_tot <-
    frame_loop c fps (radius_frame_compressed compress radius) ;;
  Ok (polar_outcome c "radial" save fps intensity_tot).

End Polar.

(** What a caller and the file system see of a call: the returned value
    and the saved tables, or the exception. *)
Definition outputs {A : Type} (r : result (Outcome A))
  : result (A * list (string * list (list Q))) :=
  o <- r ;;
  Ok (returned o, saved o).

End VideoAnalysis.

(** ** Worked inputs

    Concrete values on which the definitions above are run below. *)

Module Example.

Import VideoAnalysis.

(** The doubles [math.cos(math.radians(45))] = 0.7071067811865476 and
    [math.sin(math.radians(45))] = 0.7071067811865475. *)
Definition cos45 : Q := 6369051672525773 # 9007199254740992.
Definition sin45 : Q := 1592262918131443 # 2251799813685248.

(** [10*math.cos(math.radians(180))] = -10.0 and
    [10*math.sin(math.radians(180))] = 1.2246467991473533e-15. *)
Definition ten_cos180 : Q := -10 # 1.
Definition ten_sin180 : Q :=
  6209697000026889 # 5070602400912917605986812821504.

(** Bhaskara's rational sine, in degrees.  It is exact at the multiples of
    90 and stays strictly inside (-1, 1) elsewhere, so for [r = 1] it gives
    the offsets [int(r*math.sin(...))] of the platform float exactly: 0
    everywhere except at the multiples of 90. *)
Definition bhaskara (d : Z) : Q :=
  let d := d mod 360 in
  if d <=? 180 then (4 * d * (180 - d)) # Z.to_pos (40500 - d * (180 - d))
  else
    let e := d - 180 in
    - ((4 * e * (180 - e)) # Z.to_pos (40500 - e * (180 - e))).

Definition sin_deg (i : Z) : Q := bhaskara i.
Definition cos_deg (i : Z) : Q := bhaskara (i + 90).
Definition times (r : Z) (v : Q) : Q := Qred (inject_Z r * v).

(** A [h] by [w] frame whose three channels hold the column number. *)
Definition ramp (h w : nat) : Frame :=
  {| shape0 := h; shape1 := w; px := fun _ x _ => Z.of_nat x |}.

(** A clip of two seconds of 2 by 2 frames; [iter_frames(fps)] yields one
    frame per step of [1/fps] below the duration. *)
Definition two_seconds : Clip :=
  {| filename := "eclipse.mp4";
     duration := 2;
     iter_frames := fun fps =>
       repeat (ramp 2 2) (Z.to_nat (Qceiling (2 * fps)));
     get_frame := fun _ => ramp 2 2 |}.



(** A clip that yields no frame at any rate. *)
Definition no_frames : Clip :=
  {| filename := "empty.mp4";
     duration := 0;
     iter_frames := fun _ => [];
     get_frame := fun _ => ramp 2 2 |}.

(** A detector that finds the circle [c0] in frames of even height and
    nothing in the others. *)
Definition even_height_detector (fr : Frame) : list Coord :=
  if Nat.even (shape0 fr) then [mkCoord 100 100 50] else [].

(** Three frames, the second of odd height. *)
Definition odd_middle : Clip :=
  {| filename := "eclipse.mp4";
     duration := 3;
     iter_frames := fun _ => [ramp 2 2; ramp 3 2; ramp 2 2];
     get_frame := fun _ => ramp 2 2 |}.

Definition c0 : Coord := mkCoord 100 100 50.
Definition c2 : Coord := mkCoord 120 110 50.

End Example.

(** ** The specification's formulas

    Definitions that follow the wording of the specification, to be
    compared with the definitions taken from the code. *)

Module Claimed.

(** Nearest-integer rounding of an offset. *)
Definition round (v : Q) : Z := Qfloor (v + (1 # 2)).

(** [x_new = x + round(r*cos(theta))], [y_new = y + round(r*sin(theta))]. *)
Definition offset_coord (x y : Z) (rc rs : Q) : Z * Z :=
  (x + round rc, y + round rs).

(** Length [360 // compress] of a compressed angular profile. *)
Definition angular_length (compress : Z) : Z := 360 / compress.

(** Length [(R-1) // compress] of a compressed radial profile. *)
Definition radial_length (radius compress : Z) : Z := (radius - 1) / compress.

End Claimed.

(** [n] is [v] with its fractional part dropped. *)
Definition toward_zero (v : Q) (n : Z) : Prop :=
  ((0 <= v)%Q -> (inject_Z n <= v)%Q /\ (v < inject_Z n + 1)%Q)
  /\ ((v <= 0)%Q -> (inject_Z n - 1 < v)%Q /\ (v <= inject_Z n)%Q).

(** The test [i % compress == 0] for a non-zero [compress]. *)
Definition multiple (compress i : Z) : bool := i mod compress =? 0.

(** [ceil(n / compress)] for [compress > 0]. *)
Definition ceil_div (n compress : Z) : Z := (n + compress - 1) / compress.

(** ** Properties of the tracking loop of stabilization.py *)

Section TrackingLoop.

Import Stabilization.

(** The rows appended by the circle loop are the rows of the array. *)
Lemma loop_body_fold (circles : list Coord) (st : State) :
  circle_coords (fold_left loop_body circles st) = circle_coords st ++ circles
  /\ frame_num (fold_left loop_body circles st) = frame_num st
  /\ (circles <> [] ->
      forall d, coord (fold_left loop_body circles st) = Some (last circles d)).
Proof.
  revert st.
  induction circles as [|i rest IH]; intros st.
  - simpl. rewrite app_nil_r. repeat split. intros H; contradiction.
  - simpl fold_left.
    destruct (IH (loop_body st i)) as (Hcc & Hfn & Hcoord).
    destruct i as [x y r].
    repeat split.
    + rewrite Hcc. simpl. rewrite <- app_assoc. reflexivity.
    + rewrite Hfn. reflexivity.
    + intros _ d. destruct rest as [|j rest'].
      * reflexivity.
      * rewrite (Hcoord ltac:(discriminate) d). reflexivity.
Qed.

(** After any frame [coord] is bound. *)
Lemma frame_step_coord_bound (st : State) (circles : list Coord) :
  coord (frame_step st circles) <> None.
Proof.
  unfold frame_step. destruct circles as [|c cs].
  - destruct (circle_coords st); simpl; discriminate.
  - cbn [coord].
    destruct (loop_body_fold (c :: cs) st) as (_ & _ & H).
    rewrite (H ltac:(discriminate) c). discriminate.
Qed.

Lemma tracked_init : tracked init.
Proof. left. reflexivity. Qed.

Lemma last_app_singleton (A : Type) (l : list A) (a d : A) :
  last (l ++ [a]) d = a.
Proof. apply last_last. Qed.

Lemma last_default (A : Type) (l : list A) (d d' : A) :
  l <> [] -> last l d = last l d'.
Proof.
  induction l as [|a [|b l'] IH]; intros Hne.
  - contradiction.
  - reflexivity.
  - change (last (b :: l') d = last (b :: l') d'). apply IH. discriminate.
Qed.

Lemma last_app_nonempty (A : Type) (l l' : list A) (d d' : A) :
  l' <> [] -> last (l ++ l') d = last l' d'.
Proof.
  intros Hne. induction l as [|a l IH].
  - simpl. apply last_default. exact Hne.
  - destruct (l ++ l') as [|b m] eqn:E.
    + destruct l; [simpl in E; contradiction | discriminate].
    + change (last ((a :: l) ++ l') d) with (last (a :: l ++ l') d).
      rewrite E. exact IH.
Qed.

Lemma tracked_frame_step (st : State) (circles : list Coord) :
  tracked st -> tracked (frame_step st circles).
Proof.
  intros Hst. unfold tracked, frame_step. destruct circles as [|c cs].
  - destruct (circle_coords st) as [|c0 tl] eqn:Hcc; cbn [circle_coords coord].
    + right. reflexivity.
    +
      destruct ((c0 :: tl) ++ [last (c0 :: tl) c0]) as [|e0 etl] eqn:He.
      * destruct tl; discriminate.
      * rewrite <- He. rewrite last_app_singleton. reflexivity.
  - cbn [circle_coords coord].
    destruct (loop_body_fold (c :: cs) st) as (Hcc & _ & Hcoord).
    rewrite Hcc.
    destruct (circle_coords st ++ c :: cs) as [|e0 etl] eqn:He.
    + destruct (circle_coords st); discriminate.
    + rewrite (Hcoord ltac:(discriminate) e0). f_equal.
      rewrite <- He. symmetry. apply last_app_nonempty. discriminate.
Qed.

End TrackingLoop.

Section TrackingRuns.

Import Stabilization.

Lemma firstn_snoc (A : Type) (l : list A) (k : nat) (a : A) :
  nth_error l k = Some a -> firstn (S k) l = firstn k l ++ [a].
Proof.
  revert k. induction l as [|b l IH]; intros [|k] H; try discriminate.
  - injection H as ->. reflexivity.
  - change (b :: firstn (S k) l = b :: (firstn k l ++ [a])).
    f_equal. apply IH. exact H.
Qed.

Lemma run_frames_S (video : list (list Coord)) (k : nat) (circles : list Coord) :
  nth_error video k = Some circles ->
  run_frames video (S k) = frame_step (run_frames video k) circles.
Proof.
  intros H. unfold run_frames.
  rewrite (firstn_snoc _ _ H), fold_left_app. reflexivity.
Qed.

Lemma tracked_fold (frames : list (list Coord)) (st : State) :
  tracked st -> tracked (fold_left frame_step frames st).
Proof.
  revert st. induction frames as [|f frames IH]; intros st H.
  - exact H.
  - apply IH, tracked_frame_step, H.
Qed.

Lemma tracked_run (video : list (list Coord)) (k : nat) :
  tracked (run_frames video k).
Proof. apply tracked_fold, tracked_init. Qed.

(** The fallback of lines 76-83 on a frame without circles. *)
Lemma miss_keeps_coord (st : State) :
  tracked st -> coord st <> None -> coord (frame_step st []) = coord st.
Proof.
  unfold tracked, frame_step. intros Ht Hb.
  destruct (circle_coords st) as [|c0 tl]; cbn [coord].
  - destruct Ht as [Ht|Ht]; [contradiction | symmetry; exact Ht].
  - symmetry. exact Ht.
Qed.

(** In stabilization.py a frame [k > 0] without circles is processed with
    the estimate of frame [k-1]. *)
Lemma coord_carried_forward (video : list (list Coord)) (k : nat) :
  (0 < k)%nat -> nth_error video k = Some [] ->
  estimate video k = estimate video (k - 1).
Proof.
  intros Hk Hmiss. destruct k as [|j]; [lia|].
  replace (S j - 1)%nat with j by lia.
  unfold estimate. rewrite (run_frames_S _ _ Hmiss).
  destruct (nth_error video j) as [cj|] eqn:Hj.
  - apply miss_keeps_coord.
    + apply tracked_run.
    + rewrite (run_frames_S _ _ Hj). apply frame_step_coord_bound.
  - apply nth_error_None in Hj.
    assert (nth_error video (S j) <> None) as Hs by (rewrite Hmiss; discriminate).
    apply nth_error_Some in Hs. lia.
Qed.

End TrackingRuns.

(** ** The claims about circle tracking *)

(** C1, on [find_center_circle_pos]: a clip of three frames whose middle
    frame has no circle.  Nothing is appended for the middle frame, so the
    centre read for frame 1 ([coords[1]]) is the one detected in frame 2 and
    differs from the centre of frame 0, and frame 2 has no entry at all.
    (The loop of stabilization.py does carry the estimate forward, see
    [coord_carried_forward].) *)
Theorem centers_skip_missed_frame :
  let coords := VideoAnalysis.centers [[Example.c0]; []; [Example.c2]] in
  coords = [(100, 100); (120, 110)]
  /\ Py.list_get coords 0 = Ok (100, 100)
  /\ Py.list_get coords 1 = Ok (120, 110)
  /\ Py.list_get coords 2 = Raise IndexError.
Proof. repeat split. Qed.

(** C2: on a frame with at least one circle, the estimate of that frame is
    the last row of the detector array, and that row is the last stored one
    (the one a later miss falls back to); [find_center_circle_pos] appends
    one entry for the frame, the centre of that last row. *)
Theorem last_circle_is_recorded (video : list (list Coord)) (k : nat)
    (circles : list Coord) (d : Coord) :
  nth_error video k = Some circles -> circles <> [] ->
  Stabilization.estimate video k = Some (last circles d)
  /\ last (Stabilization.circle_coords (Stabilization.run_frames video (S k))) d
     = last circles d
  /\ forall coords,
       VideoAnalysis.center_step coords circles
       = coords ++ [(cx (last circles d), cy (last circles d))].
Proof.
  intros Hk Hne. unfold Stabilization.estimate.
  rewrite (run_frames_S _ _ Hk).
  destruct circles as [|c cs]; [contradiction|].
  destruct (loop_body_fold (c :: cs) (Stabilization.run_frames video k))
    as (Hcc & _ & Hcoord).
  repeat split.
  - cbn [Stabilization.frame_step Stabilization.coord]. apply Hcoord. discriminate.
  - cbn [Stabilization.frame_step Stabilization.circle_coords].
    rewrite Hcc. apply last_app_nonempty. discriminate.
  - intros coords. unfold VideoAnalysis.center_step.
    assert (forall (l : list Coord) a, fold_left (fun _ i : Coord => i) l a = last l a)
      as Hlast.
    { induction l as [|b l IH]; intros a; [reflexivity|].
      simpl fold_left. rewrite IH. destruct l as [|e l']; [reflexivity|].
      change (last (e :: l') b = last (e :: l') a).
      apply last_default. discriminate. }
    rewrite Hlast, (last_default c d) by discriminate. reflexivity.
Qed.

Lemma last_circle_is_recorded_witness :
  Stabilization.estimate [[Example.c0; Example.c2]] 0 = Some Example.c2
  /\ last (Stabilization.circle_coords
             (Stabilization.run_frames [[Example.c0; Example.c2]] 1)) Example.c0
     = Example.c2
  /\ forall coords,
       VideoAnalysis.center_step coords [Example.c0; Example.c2]
       = coords ++ [(120, 110)].
Proof.
  apply (@last_circle_is_recorded [[Example.c0; Example.c2]] 0%nat
           [Example.c0; Example.c2] Example.c0).
  - reflexivity.
  - discriminate.
Defined.

(** C7, on stabilization.py: a video whose first frame has no circle gets no
    row for that frame, so the saved table has one row for two frames and
    its row 0 is the estimate of frame 1, not the (680, 630, 280) used for
    frame 0; and a frame with two circles gets two rows. *)
Theorem saved_rows_are_not_per_frame :
  let video := [[]; [Example.c0]] in
  Stabilization.saved_circle_coords video = [Example.c0]
  /\ Stabilization.estimate video 0 = Some (mkCoord 680 630 280)
  /\ Stabilization.estimate video 1 = Some Example.c0
  /\ Stabilization.saved_circle_coords [[Example.c0; Example.c2]]
     = [Example.c0; Example.c2].
Proof. repeat split. Qed.

(** C8: when the detector finds no circle in frame 0, frame 0 is processed
    with the estimate (680, 630, 280). *)
Theorem first_frame_default (rest : list (list Coord)) :
  Stabilization.estimate ([] :: rest) 0 = Some (mkCoord 680 630 280).
Proof. reflexivity. Qed.

(** ** Sample coordinates *)

Section SampleCoordinates.

Import VideoAnalysis.

Lemma int_toward_zero (v : Q) : toward_zero v (Py.int v).
Proof.
  destruct v as [a b]. unfold toward_zero, Py.int, Qle, Qlt. simpl.
  assert (0 < Z.pos b) as Hb by lia.
  split; intros Ha.
  - assert (0 <= a) as Ha' by lia.
    rewrite Z.quot_div_nonneg by lia.
    pose proof (Z.mul_div_le a (Z.pos b) Hb).
    pose proof (Z.mul_succ_div_gt a (Z.pos b) Hb).
    split; nia.
  - assert (a <= 0) as Ha' by lia.
    replace a with (- - a) by lia.
    rewrite Z.quot_opp_l by lia.
    rewrite Z.quot_div_nonneg by lia.
    pose proof (Z.mul_div_le (- a) (Z.pos b) Hb).
    pose proof (Z.mul_succ_div_gt (- a) (Z.pos b) Hb).
    split; nia.
Qed.

Lemma np_index_exn (n : nat) (i : Z) (e : Py.exn) :
  Py.np_index n i = Raise e -> e = IndexError.
Proof.
  unfold Py.np_index.
  destruct ((0 <=? i) && (i <? Z.of_nat n)); [discriminate|].
  destruct ((- Z.of_nat n <=? i) && (i <? 0)); [discriminate|].
  intros H. injection H as <-. reflexivity.
Qed.

Lemma np_index_inside (n : nat) (i : Z) :
  0 <= i < Z.of_nat n -> Py.np_index n i = Ok (Z.to_nat i).
Proof.
  intros H. unfold Py.np_index.
  replace ((0 <=? i) && (i <? Z.of_nat n)) with true; [reflexivity|].
  symmetry. apply andb_true_iff. split; [apply Z.leb_le | apply Z.ltb_lt]; lia.
Qed.

Lemma np_index_wraps (n : nat) (i : Z) :
  - Z.of_nat n <= i < 0 -> Py.np_index n i = Ok (Z.to_nat (Z.of_nat n + i)).
Proof.
  intros H. unfold Py.np_index.
  replace ((0 <=? i) && (i <? Z.of_nat n)) with false.
  - replace ((- Z.of_nat n <=? i) && (i <? 0)) with true; [reflexivity|].
    symmetry. apply andb_true_iff. split; [apply Z.leb_le | apply Z.ltb_lt]; lia.
  - symmetry. apply andb_false_iff. left. apply Z.leb_gt. lia.
Qed.

Lemma np_index_outside (n : nat) (i : Z) :
  i < - Z.of_nat n \/ Z.of_nat n <= i -> Py.np_index n i = Raise IndexError.
Proof.
  intros H. unfold Py.np_index.
  replace ((0 <=? i) && (i <? Z.of_nat n)) with false.
  - replace ((- Z.of_nat n <=? i) && (i <? 0)) with false; [reflexivity|].
    symmetry. apply andb_false_iff.
    destruct H; [left; apply Z.leb_gt | right; apply Z.ltb_ge]; lia.
  - symmetry. apply andb_false_iff.
    destruct H; [left; apply Z.leb_gt | right; apply Z.ltb_ge]; lia.
Qed.

End SampleCoordinates.

(** ** The claims about sample coordinates *)

(** C3, as stated, fails: for [r = 1] at 45 degrees both float offsets are
    about 0.7071; the code drops the fraction and samples the centre
    (100, 100), where nearest-integer rounding gives (101, 101). *)
Lemma truncation_is_not_rounding :
  VideoAnalysis.offset_coord 100 100 Example.cos45 Example.sin45 = (100, 100)
  /\ Claimed.offset_coord 100 100 Example.cos45 Example.sin45 = (101, 101).
Proof. split; reflexivity. Qed.

(** C3, amended: every sample of the angular and radial profiles is read
    at [x_new = x + tx], [y_new = y + ty] (before the clamp of [y_new]),
    where [tx] and [ty] are the floats [r*cos] and [r*sin] with the fraction
    dropped, that is rounded toward zero. *)
Theorem sample_truncates_offsets (fcos fsin : Z -> Q) (fmul : Z -> Q -> Q)
    (fr : VideoAnalysis.Frame) (x y height i r : Z) :
  exists tx ty,
    toward_zero (fmul r (fcos i)) tx
    /\ toward_zero (fmul r (fsin i)) ty
    /\ VideoAnalysis.offset_coord x y (fmul r (fcos i)) (fmul r (fsin i))
       = (x + tx, y + ty)
    /\ VideoAnalysis.sample fcos fsin fmul fr x y height i r
       = (data <- VideoAnalysis.frame_get fr
                    (VideoAnalysis.clamp_y height (y + ty)) (x + tx) ;;
          Ok (Py.mean data)).
Proof.
  exists (Py.int (fmul r (fcos i))), (Py.int (fmul r (fsin i))).
  split; [apply int_toward_zero|].
  split; [apply int_toward_zero|].
  split; reflexivity.
Qed.

(** C4: the index pair of a sample is [(y_new, x_new)] with [y_new]
    replaced by [height - 1] exactly when it is at least [height]; [x_new]
    goes through as computed, and so does a [y_new] below [height]. *)
Theorem clamp_only_y_from_above (fcos fsin : Z -> Q) (fmul : Z -> Q -> Q)
    (fr : VideoAnalysis.Frame) (x y height i r : Z) :
  let rc := fmul r (fcos i) in
  let rs := fmul r (fsin i) in
  let x_new := x + Py.int rc in
  let y_new := y + Py.int rs in
  VideoAnalysis.sample_coord x y rc rs height
  = (if height <=? y_new then height - 1 else y_new, x_new)
  /\ VideoAnalysis.sample fcos fsin fmul fr x y height i r
     = (data <- VideoAnalysis.frame_get fr
                  (if height <=? y_new then height - 1 else y_new) x_new ;;
        Ok (Py.mean data)).
Proof.
  cbv zeta.
  unfold VideoAnalysis.sample, VideoAnalysis.intensity_data,
    VideoAnalysis.sample_coord, VideoAnalysis.offset_coord,
    VideoAnalysis.clamp_y.
  rewrite Z.geb_leb. split; reflexivity.
Qed.

(** C5, as stated, fails: with the centre at column 5, [r = 10] and 180
    degrees, [x_new] is -5; on a frame 20 columns wide the sample is read
    without error from column 15. *)
Lemma negative_column_wraps :
  VideoAnalysis.sample_coord 5 10 Example.ten_cos180 Example.ten_sin180 20
  = (10, -5)
  /\ VideoAnalysis.intensity_data (Example.ramp 20 20) 5 10
       Example.ten_cos180 Example.ten_sin180 20
     = Ok (Py.mean (map (VideoAnalysis.val (Example.ramp 20 20) 10 15)
                      VideoAnalysis.channels)).
Proof. split; reflexivity. Qed.

(** C5, amended: indexing raises [IndexError] when [x_new] is at least the
    frame width or below minus the width; an [x_new] in [[-width, 0)] is
    read from column [width + x_new], counted from the right edge, and an
    [x_new] in [[0, width)] from column [x_new]. *)
Theorem column_index_policy (fr : VideoAnalysis.Frame) (y_new x_new : Z) :
  let width := Z.of_nat (VideoAnalysis.shape1 fr) in
  (x_new < - width \/ width <= x_new ->
   VideoAnalysis.frame_get fr y_new x_new = Raise IndexError)
  /\ (- width <= x_new < 0 ->
      forall yi, Py.np_index (VideoAnalysis.shape0 fr) y_new = Ok yi ->
      VideoAnalysis.frame_get fr y_new x_new
      = Ok (map (VideoAnalysis.val fr yi (Z.to_nat (width + x_new)))
              VideoAnalysis.channels))
  /\ (0 <= x_new < width ->
      forall yi, Py.np_index (VideoAnalysis.shape0 fr) y_new = Ok yi ->
      VideoAnalysis.frame_get fr y_new x_new
      = Ok (map (VideoAnalysis.val fr yi (Z.to_nat x_new))
              VideoAnalysis.channels)).
Proof.
  cbv zeta. unfold VideoAnalysis.frame_get. split; [|split].
  - intros H.
    destruct (Py.np_index (VideoAnalysis.shape0 fr) y_new) as [yi|e] eqn:Hy.
    + simpl. rewrite (np_index_outside _ H). reflexivity.
    + simpl. rewrite (np_index_exn _ _ Hy). reflexivity.
  - intros H yi Hy. rewrite Hy. simpl.
    rewrite (np_index_wraps _ H). reflexivity.
  - intros H yi Hy. rewrite Hy. simpl.
    rewrite (np_index_inside _ H). reflexivity.
Qed.

Lemma column_index_policy_witness :
  VideoAnalysis.frame_get (Example.ramp 20 20) 10 20 = Raise IndexError
  /\ VideoAnalysis.frame_get (Example.ramp 20 20) 10 (-5)
     = Ok (map (VideoAnalysis.val (Example.ramp 20 20) 10 15)
             VideoAnalysis.channels)
  /\ VideoAnalysis.frame_get (Example.ramp 20 20) 10 7
     = Ok (map (VideoAnalysis.val (Example.ramp 20 20) 10 7)
             VideoAnalysis.channels).
Proof.
  destruct (column_index_policy (Example.ramp 20 20) 10 20) as [Hout _].
  destruct (column_index_policy (Example.ramp 20 20) 10 (-5)) as [_ [Hwrap _]].
  destruct (column_index_policy (Example.ramp 20 20) 10 7) as [_ [_ Hin]].
  split; [|split].
  - apply Hout. right. simpl. lia.
  - apply (Hwrap ltac:(simpl; lia) 10%nat). reflexivity.
  - apply (Hin ltac:(simpl; lia) 10%nat). reflexivity.
Defined.

(** ** Loops that append *)

Section Loops.

Variables A B : Type.

Lemma for_append_length (body : A -> result B) (xs : list A) (l : list B) :
  Py.for_append body xs = Ok l -> length l = length xs.
Proof.
  revert l. induction xs as [|v rest IH]; intros l H; simpl in H.
  - injection H as <-. reflexivity.
  - destruct (body v) as [b|e]; [|discriminate]. simpl in H.
    destruct (Py.for_append body rest) as [bs|e]; [|discriminate].
    simpl in H. injection H as <-. simpl. f_equal. apply IH. reflexivity.
Qed.

Lemma for_append_total (body : A -> result B) (xs : list A) :
  (forall v, In v xs -> exists b, body v = Ok b) ->
  exists l, Py.for_append body xs = Ok l.
Proof.
  induction xs as [|v rest IH]; intros H.
  - exists []. reflexivity.
  - destruct (H v (or_introl eq_refl)) as [b Hb].
    destruct IH as [bs Hbs]; [intros w Hw; apply H; right; exact Hw|].
    exists (b :: bs). simpl. rewrite Hb. simpl. rewrite Hbs. reflexivity.
Qed.

Lemma for_append_pure (f : A -> B) (xs : list A) :
  Py.for_append (fun v => Ok (f v)) xs = Ok (map f xs).
Proof.
  induction xs as [|v rest IH]; [reflexivity|].
  simpl. rewrite IH. reflexivity.
Qed.

Variable cond : A -> result bool.
Variable p : A -> bool.
Hypothesis cond_p : forall v, cond v = Ok (p v).

Lemma for_if_append_length (body : A -> result B) (xs : list A) (l : list B) :
  Py.for_if_append cond body xs = Ok l -> length l = length (filter p xs).
Proof.
  revert l. induction xs as [|v rest IH]; intros l H; simpl in H.
  - injection H as <-. reflexivity.
  - rewrite cond_p in H. simpl in H. simpl. destruct (p v).
    + destruct (body v) as [b|e]; [|discriminate]. simpl in H.
      destruct (Py.for_if_append cond body rest) as [bs|e]; [|discriminate].
      simpl in H. injection H as <-. simpl. f_equal. apply IH. reflexivity.
    + apply IH. exact H.
Qed.

Lemma for_if_append_total (body : A -> result B) (xs : list A) :
  (forall v, In v xs -> exists b, body v = Ok b) ->
  exists l, Py.for_if_append cond body xs = Ok l.
Proof.
  induction xs as [|v rest IH]; intros H.
  - exists []. reflexivity.
  - destruct IH as [bs Hbs]; [intros w Hw; apply H; right; exact Hw|].
    simpl. rewrite cond_p. simpl. destruct (p v).
    + destruct (H v (or_introl eq_refl)) as [b Hb].
      exists (b :: bs). rewrite Hb. simpl. rewrite Hbs. reflexivity.
    + exists bs. exact Hbs.
Qed.

Lemma for_if_append_pure (f : A -> B) (xs : list A) :
  Py.for_if_append cond (fun v => Ok (f v)) xs = Ok (map f (filter p xs)).
Proof.
  induction xs as [|v rest IH]; [reflexivity|].
  simpl. rewrite cond_p. simpl. destruct (p v).
  - rewrite IH. reflexivity.
  - exact IH.
Qed.

End Loops.

Section Strides.

Lemma divisible_multiple (compress : Z) :
  compress <> 0 -> forall i, Py.divisible compress i = Ok (multiple compress i).
Proof.
  intros Hc i. unfold Py.divisible, Py.mod_.
  destruct (compress =? 0) eqn:E; [apply Z.eqb_eq in E; contradiction|].
  reflexivity.
Qed.

Lemma range_length (a b : Z) : length (Py.range a b) = Z.to_nat (b - a).
Proof. unfold Py.range. rewrite length_map, length_seq. reflexivity. Qed.

Lemma range_In (a b i : Z) : In i (Py.range a b) <-> a <= i < b.
Proof.
  unfold Py.range. rewrite in_map_iff. split.
  - intros (k & <- & Hk). apply in_seq in Hk. lia.
  - intros H. exists (Z.to_nat (i - a)). split; [lia|]. apply in_seq. lia.
Qed.

Lemma range_snoc (n : nat) :
  Py.range 0 (Z.of_nat (S n)) = Py.range 0 (Z.of_nat n) ++ [Z.of_nat n].
Proof.
  unfold Py.range.
  replace (Z.to_nat (Z.of_nat (S n) - 0)) with (S n) by lia.
  replace (Z.to_nat (Z.of_nat n - 0)) with n by lia.
  rewrite seq_S, map_app. reflexivity.
Qed.

Lemma range_cons (b : Z) : 1 <= b -> Py.range 0 b = 0 :: Py.range 1 b.
Proof.
  intros H. unfold Py.range.
  replace (Z.to_nat (b - 0)) with (S (Z.to_nat (b - 1))) by lia.
  rewrite <- cons_seq, <- seq_shift. cbn [map]. rewrite map_map. f_equal.
  apply map_ext. intros k. lia.
Qed.

Lemma range_nth_error (n : Z) (j : nat) :
  nth_error (Py.range 0 n) j
  = if (Z.of_nat j <? n) then Some (Z.of_nat j) else None.
Proof.
  destruct (Z.of_nat j <? n) eqn:E.
  - apply Z.ltb_lt in E. unfold Py.range.
    rewrite nth_error_map.
    rewrite (nth_error_nth' _ 0%nat) by (rewrite length_seq; lia).
    rewrite seq_nth by lia. reflexivity.
  - apply Z.ltb_ge in E. apply nth_error_None. rewrite range_length. lia.
Qed.

Lemma ceil_div_zero (c : Z) : 1 <= c -> ceil_div 0 c = 0.
Proof. intros H. unfold ceil_div. apply Z.div_small. lia. Qed.

Lemma ceil_div_multiple (c m : Z) :
  1 <= c -> m mod c = 0 ->
  ceil_div (m + 1) c = ceil_div m c + 1 /\ ceil_div m c * c = m.
Proof.
  intros Hc Hm. unfold ceil_div.
  pose proof (Z.div_mod m c ltac:(lia)) as E. rewrite Hm in E.
  assert ((m + c - 1) / c = m / c) as E1.
  { symmetry. apply (Z.div_unique _ _ _ (c - 1)); lia. }
  assert ((m + 1 + c - 1) / c = m / c + 1) as E2.
  { symmetry. apply (Z.div_unique _ _ _ 0); lia. }
  rewrite E1, E2. split; lia.
Qed.

Lemma ceil_div_between (c m : Z) :
  1 <= c -> m mod c <> 0 -> ceil_div (m + 1) c = ceil_div m c.
Proof.
  intros Hc Hm. unfold ceil_div.
  pose proof (Z.div_mod m c ltac:(lia)) as E.
  pose proof (Z.mod_pos_bound m c ltac:(lia)) as Hr.
  assert ((m + c - 1) / c = m / c + 1) as E1.
  { symmetry. apply (Z.div_unique _ _ _ (m mod c - 1)); lia. }
  assert ((m + 1 + c - 1) / c = m / c + 1) as E2.
  { symmetry. apply (Z.div_unique _ _ _ (m mod c)); lia. }
  rewrite E1, E2. reflexivity.
Qed.

Lemma ceil_div_nonneg (c m : Z) : 1 <= c -> 0 <= m -> 0 <= ceil_div m c.
Proof. intros Hc Hm. unfold ceil_div. apply Z.div_pos; lia. Qed.

(** Keeping the multiples of [c] below [n] keeps [0, c, 2c, ...]. *)
Lemma filter_range_stride (c : Z) (n : nat) :
  1 <= c ->
  filter (multiple c) (Py.range 0 (Z.of_nat n))
  = map (fun k => k * c) (Py.range 0 (ceil_div (Z.of_nat n) c)).
Proof.
  intros Hc. induction n as [|n IH].
  - simpl Z.of_nat. rewrite ceil_div_zero by exact Hc. reflexivity.
  - rewrite range_snoc, filter_app, IH. cbn [filter].
    replace (Z.of_nat (S n)) with (Z.of_nat n + 1) by lia.
    pose proof (@ceil_div_nonneg c (Z.of_nat n) Hc (Nat2Z.is_nonneg n)) as Hq.
    unfold multiple at 1. destruct (Z.of_nat n mod c =? 0) eqn:E.
    + apply Z.eqb_eq in E.
      destruct (@ceil_div_multiple c (Z.of_nat n) Hc E) as [E1 E2]. rewrite E1.
      replace (ceil_div (Z.of_nat n) c + 1)
        with (Z.of_nat (S (Z.to_nat (ceil_div (Z.of_nat n) c)))) by lia.
      rewrite range_snoc, map_app.
      replace (Z.of_nat (Z.to_nat (ceil_div (Z.of_nat n) c)))
        with (ceil_div (Z.of_nat n) c) by lia.
      cbn [map]. rewrite E2. reflexivity.
    + apply Z.eqb_neq in E.
      rewrite (@ceil_div_between c (Z.of_nat n) Hc E), app_nil_r. reflexivity.
Qed.

End Strides.

Section StrideSubsample.

Lemma ceil_div_lt (k n c : Z) : 1 <= c -> k < ceil_div n c <-> k * c < n.
Proof.
  intros Hc. unfold ceil_div. split; intros H.
  - destruct (Z.lt_ge_cases (k * c) n) as [Hlt|Hge]; [exact Hlt|].
    assert ((n + c - 1) / c < k + 1) by (apply Z.div_lt_upper_bound; lia).
    lia.
  - assert (k + 1 <= (n + c - 1) / c) by (apply Z.div_le_lower_bound; lia).
    lia.
Qed.

Variable B : Type.

Lemma stride_nth_error (f : Z -> B) (c : Z) (n k : nat) :
  1 <= c ->
  nth_error (map f (filter (multiple c) (Py.range 0 (Z.of_nat n)))) k
  = nth_error (map f (Py.range 0 (Z.of_nat n))) (k * Z.to_nat c).
Proof.
  intros Hc.
  rewrite (filter_range_stride n Hc), map_map, !nth_error_map, !range_nth_error.
  pose proof (@ceil_div_lt (Z.of_nat k) (Z.of_nat n) c Hc) as Hlt.
  replace (Z.of_nat (k * Z.to_nat c)) with (Z.of_nat k * c) by lia.
  destruct (Z.of_nat k <? ceil_div (Z.of_nat n) c) eqn:E1;
    destruct (Z.of_nat k * c <? Z.of_nat n) eqn:E2; try reflexivity.
  - apply Z.ltb_lt in E1. apply Z.ltb_ge in E2. lia.
  - apply Z.ltb_ge in E1. apply Z.ltb_lt in E2. lia.
Qed.

Lemma stride_length (f : Z -> B) (c : Z) (n : nat) :
  1 <= c ->
  Z.of_nat (length (map f (filter (multiple c) (Py.range 0 (Z.of_nat n)))))
  = ceil_div (Z.of_nat n) c.
Proof.
  intros Hc.
  rewrite (filter_range_stride n Hc), !length_map, range_length.
  pose proof (@ceil_div_nonneg c (Z.of_nat n) Hc (Nat2Z.is_nonneg n)). lia.
Qed.

End StrideSubsample.

(** ** The claim about compressed row and column profiles *)

(** C9: for [compress >= 1] the compressed profiles of a frame are computed
    without error, their entry [k] is entry [k*compress] of the
    uncompressed profile of the same frame (both are absent beyond the end),
    and they have [ceil(N/compress)] entries, [N] being the number of rows,
    respectively columns. *)
Theorem compressed_profile_is_stride_subsample (fr : VideoAnalysis.Frame)
    (compress : Z) :
  1 <= compress ->
  exists y_c x_c,
    VideoAnalysis.y_array_one_frame_compressed compress fr = Ok y_c
    /\ VideoAnalysis.x_array_one_frame_compressed compress fr = Ok x_c
    /\ (forall k, nth_error y_c k
                  = nth_error (VideoAnalysis.y_array_one_frame fr)
                      (k * Z.to_nat compress))
    /\ (forall k, nth_error x_c k
                  = nth_error (VideoAnalysis.x_array_one_frame fr)
                      (k * Z.to_nat compress))
    /\ Z.of_nat (length y_c)
       = ceil_div (Z.of_nat (VideoAnalysis.shape0 fr)) compress
    /\ Z.of_nat (length x_c)
       = ceil_div (Z.of_nat (VideoAnalysis.shape1 fr)) compress.
Proof.
  intros Hc.
  assert (compress <> 0) as Hnz by lia.
  unfold VideoAnalysis.y_array_one_frame_compressed,
    VideoAnalysis.x_array_one_frame_compressed,
    VideoAnalysis.y_array_one_frame, VideoAnalysis.x_array_one_frame.
  rewrite !(@for_if_append_pure _ _ _ _ (divisible_multiple Hnz)).
  eexists. eexists.
  split; [reflexivity|]. split; [reflexivity|].
  split; [intros k; apply stride_nth_error; exact Hc|].
  split; [intros k; apply stride_nth_error; exact Hc|].
  split; apply stride_length; exact Hc.
Qed.

Lemma compressed_profile_is_stride_subsample_witness :
  exists y_c x_c,
    VideoAnalysis.y_array_one_frame_compressed 4 (Example.ramp 6 9) = Ok y_c
    /\ VideoAnalysis.x_array_one_frame_compressed 4 (Example.ramp 6 9) = Ok x_c
    /\ (forall k, nth_error y_c k
                  = nth_error (VideoAnalysis.y_array_one_frame (Example.ramp 6 9))
                      (k * Z.to_nat 4))
    /\ (forall k, nth_error x_c k
                  = nth_error (VideoAnalysis.x_array_one_frame (Example.ramp 6 9))
                      (k * Z.to_nat 4))
    /\ Z.of_nat (length y_c)
       = ceil_div (Z.of_nat (VideoAnalysis.shape0 (Example.ramp 6 9))) 4
    /\ Z.of_nat (length x_c)
       = ceil_div (Z.of_nat (VideoAnalysis.shape1 (Example.ramp 6 9))) 4.
Proof.
  apply (@compressed_profile_is_stride_subsample (Example.ramp 6 9) 4). lia.
Defined.

(** ** Lengths of the polar profiles *)

Section ProfileLengths.

Import VideoAnalysis.

Lemma stride_count_from_zero (c : Z) (n : nat) :
  1 <= c ->
  Z.of_nat (length (filter (multiple c) (Py.range 0 (Z.of_nat n))))
  = ceil_div (Z.of_nat n) c.
Proof.
  intros Hc.
  rewrite <- (@stride_length Z (fun i => i) c n Hc), map_id. reflexivity.
Qed.

Lemma stride_count_from_one (c R : Z) :
  1 <= c -> 1 <= R ->
  Z.of_nat (length (filter (multiple c) (Py.range 1 R))) = (R - 1) / c.
Proof.
  intros Hc HR.
  pose proof (@stride_count_from_zero c (Z.to_nat R) Hc) as H0.
  replace (Z.of_nat (Z.to_nat R)) with R in H0 by lia.
  rewrite (range_cons HR) in H0. cbn [filter] in H0.
  unfold multiple at 1 in H0. rewrite Z.mod_0_l in H0 by lia.
  cbn [Z.eqb length] in H0.
  unfold ceil_div in H0.
  replace (R + c - 1) with (R - 1 + 1 * c) in H0 by lia.
  rewrite Z.div_add in H0 by lia. lia.
Qed.

Variable fcos fsin : Z -> Q.
Variable fmul : Z -> Q -> Q.
Variable fr : Frame.
Variables x y radius height compress : Z.

Hypothesis radius_ge_2 : 2 <= radius.
Hypothesis compress_ge_1 : 1 <= compress.
Hypothesis samples_ok :
  forall i r, 0 <= i < 360 -> 1 <= r < radius ->
  exists v, sample fcos fsin fmul fr x y height i r = Ok v.

Lemma ray_average_ok (i : Z) :
  0 <= i < 360 ->
  exists v, ray_average fcos fsin fmul fr x y radius height i = Ok v.
Proof.
  intros Hi. unfold ray_average.
  destruct (@for_append_total _ _ (sample fcos fsin fmul fr x y height i)
              (Py.range 1 radius)) as [l Hl].
  { intros r Hr. apply range_In in Hr. apply samples_ok; assumption. }
  rewrite Hl. cbn [Py.bind].
  pose proof (for_append_length _ _ Hl) as Hlen.
  rewrite range_length in Hlen.
  destruct l as [|v l]; [simpl in Hlen; lia|].
  eexists. reflexivity.
Qed.

Lemma ring_average_ok (r : Z) :
  1 <= r < radius ->
  exists v, ring_average fcos fsin fmul fr x y height r = Ok v.
Proof.
  intros Hr. unfold ring_average.
  destruct (@for_append_total _ _
              (fun i => sample fcos fsin fmul fr x y height i r)
              (Py.range 0 360)) as [l Hl].
  { intros i Hi. apply range_In in Hi. apply samples_ok; assumption. }
  rewrite Hl. cbn [Py.bind].
  pose proof (for_append_length _ _ Hl) as Hlen.
  rewrite range_length in Hlen.
  destruct l as [|v l]; [simpl in Hlen; lia|].
  eexists. reflexivity.
Qed.

Lemma angle_frame_length :
  exists l, angle_frame fcos fsin fmul radius height fr x y = Ok l
            /\ Z.of_nat (length l) = 360.
Proof.
  unfold angle_frame.
  destruct (@for_append_total _ _
              (ray_average fcos fsin fmul fr x y radius height)
              (Py.range 0 360)) as [l Hl].
  { intros i Hi. apply range_In in Hi. apply ray_average_ok; assumption. }
  exists l. split; [exact Hl|].
  rewrite (for_append_length _ _ Hl), range_length. reflexivity.
Qed.

Lemma radius_frame_length :
  exists l, radius_frame fcos fsin fmul radius height fr x y = Ok l
            /\ Z.of_nat (length l) = radius - 1.
Proof.
  unfold radius_frame.
  destruct (@for_append_total _ _
              (ring_average fcos fsin fmul fr x y height)
              (Py.range 1 radius)) as [l Hl].
  { intros r Hr. apply range_In in Hr. apply ring_average_ok; assumption. }
  exists l. split; [exact Hl|].
  rewrite (for_append_length _ _ Hl), range_length. lia.
Qed.

Lemma angle_frame_compressed_length :
  exists l,
    angle_frame_compressed fcos fsin fmul compress radius height fr x y = Ok l
    /\ Z.of_nat (length l) = ceil_div 360 compress.
Proof.
  assert (compress <> 0) as Hnz by lia.
  unfold angle_frame_compressed.
  destruct (@for_if_append_total _ _ _ _ (divisible_multiple Hnz)
              (ray_average fcos fsin fmul fr x y radius height)
              (Py.range 0 360)) as [l Hl].
  { intros i Hi. apply range_In in Hi. apply ray_average_ok; assumption. }
  exists l. split; [exact Hl|].
  rewrite (@for_if_append_length _ _ _ _ (divisible_multiple Hnz) _ _ _ Hl).
  exact (@stride_count_from_zero compress 360%nat compress_ge_1).
Qed.

Lemma radius_frame_compressed_length :
  exists l,
    radius_frame_compressed fcos fsin fmul compress radius height fr x y = Ok l
    /\ Z.of_nat (length l) = (radius - 1) / compress.
Proof.
  assert (compress <> 0) as Hnz by lia.
  unfold radius_frame_compressed.
  destruct (@for_if_append_total _ _ _ _ (divisible_multiple Hnz)
              (ring_average fcos fsin fmul fr x y height)
              (Py.range 1 radius)) as [l Hl].
  { intros r Hr. apply range_In in Hr. apply ring_average_ok; assumption. }
  exists l. split; [exact Hl|].
  rewrite (@for_if_append_length _ _ _ _ (divisible_multiple Hnz) _ _ _ Hl).
  apply stride_count_from_one; lia.
Qed.

End ProfileLengths.

Section BoundedChecks.

Lemma range_forallb (P : Z -> bool) (a b : Z) :
  forallb P (Py.range a b) = true -> forall i, a <= i < b -> P i = true.
Proof.
  intros H i Hi. rewrite forallb_forall in H. apply H, range_In, Hi.
Qed.

(** On a 3 by 3 frame with the centre in the middle, every sample at
    radial step 1 is inside the frame. *)
Lemma unit_ring_samples_ok (i r : Z) :
  0 <= i < 360 -> 1 <= r < 2 ->
  exists v,
    VideoAnalysis.sample Example.cos_deg Example.sin_deg Example.times
      (Example.ramp 3 3) 1 1 3 i r = Ok v.
Proof.
  intros Hi Hr. assert (r = 1) as -> by lia.
  pose proof (@range_forallb
    (fun i => match VideoAnalysis.sample Example.cos_deg Example.sin_deg
                      Example.times (Example.ramp 3 3) 1 1 3 i 1 with
              | Ok _ => true
              | Raise _ => false
              end) 0 360 ltac:(vm_compute; reflexivity) i Hi) as H.
  cbv beta in H.
  destruct (VideoAnalysis.sample Example.cos_deg Example.sin_deg Example.times
              (Example.ramp 3 3) 1 1 3 i 1) as [v|e]; [|discriminate].
  exists v. reflexivity.
Qed.

End BoundedChecks.

(** ** The claim about profile lengths *)

(** C6, as stated, fails: with [compress = 7] the compressed angular
    profile keeps the angles 0, 7, ..., 357 and has 52 entries, where
    [360 // 7] is 51. *)
Lemma angular_stride_keeps_52_of_360 :
  (exists l,
     VideoAnalysis.angle_frame_compressed Example.cos_deg Example.sin_deg
       Example.times 7 2 3 (Example.ramp 3 3) 1 1 = Ok l
     /\ Z.of_nat (length l) = 52)
  /\ Claimed.angular_length 7 = 51.
Proof.
  split; [|reflexivity].
  exact (@angle_frame_compressed_length Example.cos_deg Example.sin_deg
           Example.times (Example.ramp 3 3) 1 1 2 3 7
           ltac:(lia) ltac:(lia) unit_ring_samples_ok).
Qed.

(** C6, amended: for a maximum radius [R >= 2] and [compress >= 1], on a
    frame where every sample can be read, the angular profile has 360
    entries, or [ceil(360/compress)] when compressed (which is
    [360 // compress] when [compress] divides 360), and the radial profile
    has [R-1] entries, or [(R-1) // compress] when compressed. *)
Theorem profile_lengths (fcos fsin : Z -> Q) (fmul : Z -> Q -> Q)
    (fr : VideoAnalysis.Frame) (x y radius height compress : Z) :
  2 <= radius -> 1 <= compress ->
  (forall i r, 0 <= i < 360 -> 1 <= r < radius ->
     exists v, VideoAnalysis.sample fcos fsin fmul fr x y height i r = Ok v) ->
  (exists l, VideoAnalysis.angle_frame fcos fsin fmul radius height fr x y = Ok l
             /\ Z.of_nat (length l) = 360)
  /\ (exists l, VideoAnalysis.angle_frame_compressed fcos fsin fmul
                  compress radius height fr x y = Ok l
                /\ Z.of_nat (length l) = ceil_div 360 compress)
  /\ (exists l, VideoAnalysis.radius_frame fcos fsin fmul radius height fr x y
                = Ok l
                /\ Z.of_nat (length l) = radius - 1)
  /\ (exists l, VideoAnalysis.radius_frame_compressed fcos fsin fmul
                  compress radius height fr x y = Ok l
                /\ Z.of_nat (length l) = Claimed.radial_length radius compress)
  /\ ((compress | 360) -> ceil_div 360 compress = Claimed.angular_length compress).
Proof.
  intros Hr Hc Hs.
  split; [apply angle_frame_length; assumption|].
  split; [apply angle_frame_compressed_length; assumption|].
  split; [apply radius_frame_length; assumption|].
  split; [apply radius_frame_compressed_length; assumption|].
  intros [q Hq]. unfold ceil_div, Claimed.angular_length. rewrite Hq.
  rewrite Z.div_mul by lia.
  symmetry. apply (Z.div_unique _ _ _ (compress - 1)); lia.
Qed.

Lemma profile_lengths_witness :
  (exists l, VideoAnalysis.angle_frame Example.cos_deg Example.sin_deg
               Example.times 2 3 (Example.ramp 3 3) 1 1 = Ok l
             /\ Z.of_nat (length l) = 360)
  /\ (exists l, VideoAnalysis.angle_frame_compressed Example.cos_deg
                  Example.sin_deg Example.times 7 2 3 (Example.ramp 3 3) 1 1
                = Ok l
                /\ Z.of_nat (length l) = ceil_div 360 7)
  /\ (exists l, VideoAnalysis.radius_frame Example.cos_deg Example.sin_deg
                  Example.times 2 3 (Example.ramp 3 3) 1 1 = Ok l
                /\ Z.of_nat (length l) = 2 - 1)
  /\ (exists l, VideoAnalysis.radius_frame_compressed Example.cos_deg
                  Example.sin_deg Example.times 7 2 3 (Example.ramp 3 3) 1 1
                = Ok l
                /\ Z.of_nat (length l) = Claimed.radial_length 2 7)
  /\ ((7 | 360) -> ceil_div 360 7 = Claimed.angular_length 7).
Proof.
  apply (@profile_lengths Example.cos_deg Example.sin_deg Example.times
           (Example.ramp 3 3) 1 1 2 3 7).
  - lia.
  - lia.
  - exact unit_ring_samples_ok.
Defined.

(** ** The claim about the [fps] argument *)

(** [find_xy_intensities] does hand its [fps] to [iter_frames], and the
    functions below still size their progress bar with it: on a clip of two
    seconds the profiles differ between 1 and 2 frames per second, and so
    does the bar of the compressed variant, whose profiles do not. *)
Lemma find_xy_intensities_reads_fps :
  VideoAnalysis.outputs
    (VideoAnalysis.find_xy_intensities Example.two_seconds false 1)
  <> VideoAnalysis.outputs
       (VideoAnalysis.find_xy_intensities Example.two_seconds false 2)
  /\ VideoAnalysis.find_xy_intensities_compressed Example.two_seconds 1 false 1
     <> VideoAnalysis.find_xy_intensities_compressed Example.two_seconds 1 false 2.
Proof.
  split; intros H; vm_compute in H; discriminate H.
Qed.

Section ProgressBar.

Import VideoAnalysis.






Variable hough_circles : Frame -> list Coord.



End ProgressBar.




(** ** Further properties of the tracking loop *)

Section TrackingExtras.

Import Stabilization.

Lemma coord_carried_forward_witness :
  estimate [[Example.c0]; []] 1 = estimate [[Example.c0]; []] (1 - 1).
Proof.
  apply (@coord_carried_forward [[Example.c0]; []] 1%nat).
  - lia.
  - reflexivity.
Defined.

(** While no frame has had a circle, every frame is processed with the
    default estimate and nothing is stored. *)
Lemma leading_misses_use_default (video : list (list Coord)) (k : nat) :
  (forall j, (j <= k)%nat -> nth_error video j = Some []) ->
  estimate video k = Some (mkCoord 680 630 280)
  /\ circle_coords (run_frames video (S k)) = [].
Proof.
  unfold estimate. induction k as [|k IH]; intros H.
  - rewrite (run_frames_S _ _ (H 0%nat (le_n 0))). split; reflexivity.
  - destruct IH as [_ Hcc]; [intros j Hj; apply H; lia|].
    rewrite (run_frames_S _ _ (H (S k) (le_n _))).
    unfold frame_step. rewrite Hcc. split; reflexivity.
Qed.

Lemma leading_misses_use_default_witness :
  estimate [[]; []; [Example.c0]] 1 = Some (mkCoord 680 630 280)
  /\ circle_coords (run_frames [[]; []; [Example.c0]] 2) = [].
Proof.
  apply (@leading_misses_use_default [[]; []; [Example.c0]] 1%nat).
  intros [|[|j]] Hj; [reflexivity | reflexivity | lia].
Defined.

Lemma frame_step_rows (st : State) (circles : list Coord) (P : Coord -> Prop) :
  Forall P (circle_coords st) -> Forall P circles ->
  Forall P (circle_coords (frame_step st circles)).
Proof.
  intros Hst Hc. unfold frame_step. cbn [circle_coords].
  destruct circles as [|c cs].
  - destruct (circle_coords st) as [|c0 tl] eqn:E; cbn [circle_coords].
    + constructor.
    + apply Forall_app. split; [exact Hst|].
      constructor; [|constructor].
      rewrite Forall_forall in Hst. apply Hst.
      destruct (@exists_last _ (c0 :: tl) ltac:(discriminate)) as (l' & a & Ea).
      rewrite Ea, last_last. apply in_or_app. right. left. reflexivity.
  - destruct (loop_body_fold (c :: cs) st) as (Hcc & _ & _).
    rewrite Hcc. apply Forall_app. split; assumption.
Qed.

Lemma fold_frame_step_rows (frames : list (list Coord)) (st : State)
    (P : Coord -> Prop) :
  Forall P (circle_coords st) -> Forall (Forall P) frames ->
  Forall P (circle_coords (fold_left frame_step frames st)).
Proof.
  revert st. induction frames as [|f frames IH]; intros st Hst Hf.
  - exact Hst.
  - inversion Hf as [|? ? Hhd Htl]; subst. simpl.
    apply IH; [apply frame_step_rows; assumption | exact Htl].
Qed.

(** Every row of the saved table is a row some frame's detector array
    had: the default estimate is used but never written. *)
Lemma saved_rows_were_detected (video : list (list Coord)) (row : Coord) :
  In row (saved_circle_coords video) ->
  exists circles, In circles video /\ In row circles.
Proof.
  unfold saved_circle_coords, run_frames. rewrite firstn_all.
  revert row. apply Forall_forall.
  apply fold_frame_step_rows; [constructor|].
  apply Forall_forall. intros circles Hc. apply Forall_forall.
  intros row Hr. exists circles. split; assumption.
Qed.

Lemma saved_rows_were_detected_witness :
  exists circles,
    In circles [[]; [Example.c0]; []] /\ In Example.c0 circles.
Proof.
  apply (@saved_rows_were_detected [[]; [Example.c0]; []] Example.c0).
  left. reflexivity.
Defined.

End TrackingExtras.

Section RowsPerFrame.

Import Stabilization.

(** A frame with at most one circle, coming after something was stored or
    bringing a circle itself, adds exactly one row: its estimate. *)
Lemma frame_step_one_row (st : State) (circles : list Coord) :
  (length circles <= 1)%nat -> circles <> [] \/ circle_coords st <> [] ->
  exists e, coord (frame_step st circles) = Some e
            /\ circle_coords (frame_step st circles) = circle_coords st ++ [e].
Proof.
  intros Hlen Hne. unfold frame_step. destruct circles as [|c [|c' cs]].
  - destruct Hne as [Hne|Hne]; [contradiction|].
    destruct (circle_coords st) as [|c0 tl]; [contradiction|].
    eexists. split; reflexivity.
  - destruct c as [x y r]. eexists. split; reflexivity.
  - simpl in Hlen. lia.
Qed.

Lemma rows_follow_frames (video : list (list Coord)) (c : Coord) (k : nat) :
  nth_error video 0 = Some [c] ->
  Forall (fun circles => (length circles <= 1)%nat) video ->
  (k <= length video)%nat ->
  length (circle_coords (run_frames video k)) = k
  /\ forall j, (j < k)%nat ->
       nth_error (circle_coords (run_frames video k)) j = estimate video j.
Proof.
  intros H0 Hone. induction k as [|k IH]; intros Hk.
  - split; [reflexivity | intros j Hj; lia].
  - destruct IH as [Hlen Hrows]; [lia|].
    destruct (nth_error video k) as [circles|] eqn:Ek;
      [|apply nth_error_None in Ek; lia].
    assert (length circles <= 1)%nat as Hc.
    { rewrite Forall_forall in Hone. apply Hone.
      apply (nth_error_In _ _ Ek). }
    destruct (@frame_step_one_row (run_frames video k) circles Hc)
      as (e & He & Hcc).
    { destruct k as [|k'].
      - left. rewrite H0 in Ek. injection Ek as <-. discriminate.
      - right. intros E. rewrite E in Hlen. discriminate. }
    rewrite (run_frames_S _ _ Ek), Hcc. split.
    + rewrite length_app, Hlen. simpl. lia.
    + intros j Hj. destruct (Nat.eq_dec j k) as [->|Hjk].
      * rewrite nth_error_app2, Hlen, Nat.sub_diag by lia.
        unfold estimate. rewrite (run_frames_S _ _ Ek), He. reflexivity.
      * rewrite nth_error_app1 by lia. apply Hrows. lia.
Qed.

(** When the first frame has one circle and no frame has more than one,
    the saved table has one row per frame and row [k] is the estimate frame
    [k] was processed with. *)
Lemma one_row_per_frame (video : list (list Coord)) (c : Coord) :
  nth_error video 0 = Some [c] ->
  Forall (fun circles => (length circles <= 1)%nat) video ->
  length (saved_circle_coords video) = length video
  /\ forall k, (k < length video)%nat ->
       nth_error (saved_circle_coords video) k = estimate video k.
Proof.
  intros H0 Hone. unfold saved_circle_coords.
  apply (rows_follow_frames H0 Hone). lia.
Qed.

Lemma one_row_per_frame_witness :
  length (saved_circle_coords [[Example.c0]; []; [Example.c2]]) = 3%nat
  /\ forall k, (k < 3)%nat ->
       nth_error (saved_circle_coords [[Example.c0]; []; [Example.c2]]) k
       = estimate [[Example.c0]; []; [Example.c2]] k.
Proof.
  apply (@one_row_per_frame [[Example.c0]; []; [Example.c2]] Example.c0).
  - reflexivity.
  - repeat constructor.
Defined.

Lemma fold_frame_step_frame_num (frames : list (list Coord)) (st : State) :
  frame_num (fold_left frame_step frames st)
  = (frame_num st + length frames)%nat.
Proof.
  revert st. induction frames as [|f frames IH]; intros st.
  - simpl. lia.
  - simpl fold_left. rewrite IH. unfold frame_step. cbn [frame_num].
    destruct f as [|c cs].
    + destruct (circle_coords st); simpl; lia.
    + destruct (loop_body_fold (c :: cs) st) as (_ & Hfn & _).
      rewrite Hfn. simpl. lia.
Qed.

(** The counter printed at line 87 is the number of frames read so far. *)
Lemma frame_num_counts_frames (video : list (list Coord)) (k : nat) :
  frame_num (run_frames video k) = Nat.min k (length video).
Proof.
  unfold run_frames. rewrite fold_frame_step_frame_num, length_firstn.
  reflexivity.
Qed.

End RowsPerFrame.

(** ** The region of interest of stabilization.py *)

Section RegionOfInterest.

Import Stabilization.

Lemma slice_bound_inside (n a : Z) : 0 <= a -> slice_bound n a = Z.min a n.
Proof.
  intros H. unfold slice_bound.
  destruct (a <? 0) eqn:E; [apply Z.ltb_lt in E; lia | reflexivity].
Qed.

Lemma loop_body_radius (circles : list Coord) (st : State) :
  circles <> [] ->
  radius (fold_left loop_body circles st)
  = option_map cradius (coord (fold_left loop_body circles st)).
Proof.
  revert st. induction circles as [|i rest IH]; intros st Hne; [contradiction|].
  destruct rest as [|j rest']; [reflexivity|].
  change (fold_left loop_body (i :: j :: rest') st)
    with (fold_left loop_body (j :: rest') (loop_body st i)).
  apply IH. discriminate.
Qed.

(** While a frame is processed, [radius] is the radius of [coord]. *)
Lemma radius_of_coord (st : State) (circles : list Coord) :
  radius (frame_step st circles)
  = option_map cradius (coord (frame_step st circles)).
Proof.
  unfold frame_step. cbn [radius coord]. destruct circles as [|c cs].
  - destruct (circle_coords st); reflexivity.
  - apply loop_body_radius. discriminate.
Qed.

(** The region has side [2*radius + 200] in both directions and starts
    inside the frame. *)
Lemma roi_size (coord : Coord) (radius : Z) :
  exists x y,
    roi coord radius = (x, y, 2 * radius + 200, 2 * radius + 200)
    /\ 0 <= x /\ 0 <= y.
Proof.
  unfold roi.
  exists (if -1 * radius - 100 + cx coord <? 0 then 0
          else -1 * radius - 100 + cx coord),
         (if -1 * radius - 100 + cy coord <? 0 then 0
          else -1 * radius - 100 + cy coord).
  split; [f_equal; [f_equal|]; lia|].
  split.
  - destruct (-1 * radius - 100 + cx coord <? 0) eqn:E;
      [lia | apply Z.ltb_ge in E; exact E].
  - destruct (-1 * radius - 100 + cy coord <? 0) eqn:E;
      [lia | apply Z.ltb_ge in E; exact E].
Qed.

Lemma in_slice_covers (n c r i : Z) :
  0 <= r -> 0 <= c -> 0 <= i < n ->
  c - r - 100 <= i < c + r + 100 ->
  in_slice n (if -1 * r - 100 + c <? 0 then 0 else -1 * r - 100 + c)
    ((if -1 * r - 100 + c <? 0 then 0 else -1 * r - 100 + c)
     + (2 * r + 200)) i = true.
Proof.
  intros Hr Hc Hi Hin. unfold in_slice.
  destruct (-1 * r - 100 + c <? 0) eqn:E.
  - apply Z.ltb_lt in E. rewrite !slice_bound_inside by lia.
    apply andb_true_iff. split; [apply Z.leb_le | apply Z.ltb_lt]; lia.
  - apply Z.ltb_ge in E. rewrite !slice_bound_inside by lia.
    apply andb_true_iff. split; [apply Z.leb_le | apply Z.ltb_lt]; lia.
Qed.

(** The mask keeps every pixel of the frame that lies within
    [radius + 100] of the centre in both directions, also when the region
    was moved to start at the frame's edge. *)
Lemma mask_keeps_circle (shape0 shape1 : nat) (frame : nat -> nat -> nat -> Z)
    (coord : Coord) (radius : Z) (row col ch : nat) :
  0 <= radius -> 0 <= cx coord -> 0 <= cy coord ->
  (row < shape0)%nat -> (col < shape1)%nat ->
  cy coord - radius - 100 <= Z.of_nat row < cy coord + radius + 100 ->
  cx coord - radius - 100 <= Z.of_nat col < cx coord + radius + 100 ->
  let '(x, y, w, h) := roi coord radius in
  mask shape0 shape1 frame x y w h row col ch = frame row col ch.
Proof.
  intros Hr Hx Hy Hrow Hcol Hin_y Hin_x. unfold roi, mask.
  replace (radius + 100 + cx coord - (-1 * radius - 100 + cx coord))
    with (2 * radius + 200) by lia.
  replace (radius + 100 + cy coord - (-1 * radius - 100 + cy coord))
    with (2 * radius + 200) by lia.
  rewrite (@in_slice_covers (Z.of_nat shape0) (cy coord) radius (Z.of_nat row))
    by lia.
  rewrite (@in_slice_covers (Z.of_nat shape1) (cx coord) radius (Z.of_nat col))
    by lia.
  reflexivity.
Qed.

Lemma mask_keeps_circle_witness :
  let '(x, y, w, h) := roi (mkCoord 50 300 120) 120 in
  mask 480 640 (fun row col _ => Z.of_nat (row + col)) x y w h 100 260 0
  = Z.of_nat (100 + 260).
Proof.
  apply (@mask_keeps_circle 480 640 (fun row col _ => Z.of_nat (row + col))
           (mkCoord 50 300 120) 120 100 260 0); simpl; lia.
Defined.

(** Outside the region the mask is black. *)
Lemma mask_blacks_outside (shape0 shape1 : nat) (frame : nat -> nat -> nat -> Z)
    (x y w h : Z) (row col ch : nat) :
  0 <= x -> 0 <= y -> 0 <= w -> 0 <= h ->
  Z.of_nat row < y \/ y + h <= Z.of_nat row
  \/ Z.of_nat col < x \/ x + w <= Z.of_nat col ->
  mask shape0 shape1 frame x y w h row col ch = 0.
Proof.
  intros Hx Hy Hw Hh Hout. unfold mask, in_slice.
  rewrite !slice_bound_inside by lia.
  destruct ((Z.min y (Z.of_nat shape0) <=? Z.of_nat row)
            && (Z.of_nat row <? Z.min (y + h) (Z.of_nat shape0))) eqn:Ey;
    [|reflexivity].
  destruct ((Z.min x (Z.of_nat shape1) <=? Z.of_nat col)
            && (Z.of_nat col <? Z.min (x + w) (Z.of_nat shape1))) eqn:Ex;
    [|reflexivity].
  apply andb_true_iff in Ey. destruct Ey as [Ey1 Ey2].
  apply andb_true_iff in Ex. destruct Ex as [Ex1 Ex2].
  apply Z.leb_le in Ey1, Ex1. apply Z.ltb_lt in Ey2, Ex2.
  lia.
Qed.

End RegionOfInterest.

(** ** More on loops that append *)

Section LoopResults.

Variables A B : Type.
Variable body : A -> result B.

Lemma for_append_each (xs : list A) (l : list B) :
  Py.for_append body xs = Ok l ->
  forall i x, nth_error xs i = Some x ->
  exists v, body x = Ok v /\ nth_error l i = Some v.
Proof.
  revert l. induction xs as [|a rest IH]; intros l H i x Hi.
  - destruct i; discriminate.
  - simpl in H. destruct (body a) as [b|e] eqn:Eb; [|discriminate].
    simpl in H.
    destruct (Py.for_append body rest) as [bs|e]; [|discriminate].
    simpl in H. injection H as <-. destruct i as [|i].
    + injection Hi as <-. exists b. split; [exact Eb | reflexivity].
    + apply (IH bs eq_refl i x Hi).
Qed.

Lemma for_append_in (xs : list A) (l : list B) (x : A) :
  Py.for_append body xs = Ok l -> In x xs -> exists v, body x = Ok v.
Proof.
  intros H Hin. apply In_nth_error in Hin. destruct Hin as [i Hi].
  destruct (for_append_each _ H _ Hi) as (v & Hv & _). exists v. exact Hv.
Qed.

Variable cond : A -> result bool.
Variable p : A -> bool.
Hypothesis cond_p : forall v, cond v = Ok (p v).

(** When the test cannot raise, the guarded loop is the plain loop over
    the elements that pass the test. *)
Lemma for_if_append_filter (xs : list A) :
  Py.for_if_append cond body xs = Py.for_append body (filter p xs).
Proof.
  induction xs as [|a rest IH]; [reflexivity|].
  simpl. rewrite cond_p. cbn [Py.bind]. destruct (p a).
  - simpl. rewrite IH. reflexivity.
  - exact IH.
Qed.

End LoopResults.

(** ** Centres found by [find_center_circle_pos] *)

Section Centers.

Import VideoAnalysis.

Lemma centers_from (detections : list (list Coord)) (acc : list (Z * Z))
    (d : Coord) :
  fold_left center_step detections acc
  = acc ++ flat_map (fun circles =>
             match circles with
             | [] => []
             | _ => [(cx (last circles d), cy (last circles d))]
             end) detections.
Proof.
  revert acc. induction detections as [|circles rest IH]; intros acc.
  - simpl. rewrite app_nil_r. reflexivity.
  - simpl fold_left. rewrite IH. destruct circles as [|c cs].
    + reflexivity.
    + unfold center_step. rewrite <- app_assoc. cbn [flat_map app].
      assert (fold_left (fun _ i : Coord => i) (c :: cs) c = last (c :: cs) d)
        as ->; [|reflexivity].
      assert (forall (l : list Coord) a,
                fold_left (fun _ i : Coord => i) l a = last l a) as Hlast.
      { induction l as [|b l IHl]; intros a; [reflexivity|].
        simpl fold_left. rewrite IHl. destruct l as [|e l']; [reflexivity|].
        change (last (e :: l') b = last (e :: l') a).
        apply last_default. discriminate. }
      rewrite Hlast. apply last_default. discriminate.
Qed.

(** When every frame has at least one circle, [coords] has one entry per
    frame and entry [k] is the centre of the last circle of frame [k]. *)
Lemma centers_aligned (detections : list (list Coord)) (d : Coord) :
  Forall (fun circles => circles <> []) detections ->
  centers detections
  = map (fun circles => (cx (last circles d), cy (last circles d))) detections.
Proof.
  intros H. unfold centers. rewrite (centers_from _ _ d). simpl.
  induction H as [|circles rest Hne _ IH]; [reflexivity|].
  simpl. rewrite IH. destruct circles; [contradiction | reflexivity].
Qed.

Lemma centers_aligned_witness :
  centers [[Example.c0]; [Example.c0; Example.c2]]
  = map (fun circles =>
           (cx (last circles Example.c0), cy (last circles Example.c0)))
      [[Example.c0]; [Example.c0; Example.c2]].
Proof.
  apply (@centers_aligned [[Example.c0]; [Example.c0; Example.c2]] Example.c0).
  repeat constructor; discriminate.
Defined.

(** A frame without circles leaves [coords] shorter than the number of
    frames. *)
Lemma centers_short (detections : list (list Coord)) :
  In [] detections -> (length (centers detections) < length detections)%nat.
Proof.
  intros H. unfold centers. rewrite (centers_from _ _ (mkCoord 0 0 0)). simpl.
  induction detections as [|circles rest IH]; [contradiction|].
  assert (forall l : list (list Coord),
            (length (flat_map (fun circles : list Coord =>
               match circles with
               | [] => []
               | _ => [(cx (last circles (mkCoord 0 0 0)),
                        cy (last circles (mkCoord 0 0 0)))]
               end) l) <= length l)%nat) as Hle.
  { induction l as [|a l IHl]; [simpl; lia|].
    cbn [flat_map]. rewrite length_app. destruct a; simpl; lia. }
  cbn [flat_map]. rewrite length_app. destruct H as [->|H].
  - simpl. specialize (Hle rest). lia.
  - specialize (IH H). destruct circles; simpl; lia.
Qed.

End Centers.

(** ** The frame loop of the polar functions *)

Section FrameLoop.

Import VideoAnalysis.

Lemma combine_seq_in (T : Type) (frames : list T) (start k : nat) (f : T) :
  nth_error frames k = Some f ->
  In ((start + k)%nat, f) (combine (seq start (length frames)) frames).
Proof.
  revert start k. induction frames as [|a rest IH]; intros start k H.
  - destruct k; discriminate.
  - destruct k as [|k]; simpl.
    + injection H as <-. left. f_equal. lia.
    + right. replace (start + S k)%nat with (S start + k)%nat by lia.
      apply IH. exact H.
Qed.

Lemma numbered_has (frames : list Frame) (k : nat) :
  (k < length frames)%nat -> exists fr, In (k, fr) (numbered frames).
Proof.
  intros H. destruct (nth_error frames k) as [fr|] eqn:E;
    [|apply nth_error_None in E; lia].
  exists fr. apply (combine_seq_in frames 0 _ E).
Qed.

Variable hough_circles : Frame -> list Coord.

(** When the bar lets [find_center_circle_pos] finish, its result is the
    list of centres. *)
Lemma center_loop_centers (max_value : Z) (frames : list Frame)
    (frame_num : Z) (acc coords : list (Z * Z)) :
  center_loop hough_circles max_value frames frame_num acc = Ok coords ->
  coords = fold_left center_step (map hough_circles frames) acc.
Proof.
  revert frame_num acc. induction frames as [|f rest IH]; intros k acc H.
  - simpl in H. injection H as <-. reflexivity.
  - simpl in H. destruct (Py.bar_update max_value (k + 1)); [|discriminate].
    cbn [Py.bind] in H. simpl. apply (IH _ _ H).
Qed.

(** The frame loop raises as soon as one frame of the clip has no circle:
    [coords] is then too short for the frame numbers it is indexed with. *)
Lemma frame_loop_needs_every_centre (c : Clip) (fps : Q)
    (frame_intensity : Z -> Frame -> Z -> Z -> result (list Q)) (fr : Frame) :
  In fr (iter_frames c 1) -> hough_circles fr = [] ->
  exists e, frame_loop hough_circles c fps frame_intensity = Raise e.
Proof.
  intros Hin Hmiss.
  destruct (frame_loop hough_circles c fps frame_intensity) as [l|e] eqn:E;
    [|exists e; reflexivity].
  exfalso. unfold frame_loop, find_center_circle_pos in E.
  set (frames := iter_frames c 1) in *.
  destruct (center_loop hough_circles (bar_max c 1) frames 0 [])
    as [coords|e] eqn:Ec; [|discriminate].
  cbn [Py.bind] in E.
  apply center_loop_centers in Ec. fold (centers (map hough_circles frames)) in Ec.
  assert (length coords < length frames)%nat as Hshort.
  { rewrite Ec, <- (length_map hough_circles frames).
    apply centers_short. rewrite <- Hmiss. apply in_map. exact Hin. }
  destruct (numbered_has frames Hshort) as [f Hc].
  destruct (for_append_in _ _ _ E Hc) as [v Hv].
  cbn beta iota in Hv. unfold Py.list_get in Hv.
  replace (nth_error coords (length coords)) with (@None (Z * Z)) in Hv
    by (symmetry; apply nth_error_None; lia).
  discriminate Hv.
Qed.

End FrameLoop.

(** On a clip with a frame in which the detector finds no circle, each of
    the four polar functions raises an exception instead of returning. *)
Theorem polar_functions_need_every_centre
    (hough_circles : VideoAnalysis.Frame -> list Coord)
    (fcos fsin : Z -> Q) (fmul : Z -> Q -> Q) (c : VideoAnalysis.Clip)
    (radius compress : Z) (fps : Q) (save : bool) (fr : VideoAnalysis.Frame) :
  In fr (VideoAnalysis.iter_frames c 1) -> hough_circles fr = [] ->
  (exists e, VideoAnalysis.find_angle_intensity hough_circles fcos fsin fmul
               c radius fps save = Raise e)
  /\ (exists e, VideoAnalysis.find_radius_intensity hough_circles fcos fsin fmul
                  c radius fps save = Raise e)
  /\ (exists e, VideoAnalysis.find_angle_intensity_compressed hough_circles
                  fcos fsin fmul c radius compress fps save = Raise e)
  /\ (exists e, VideoAnalysis.find_radius_intensity_compressed hough_circles
                  fcos fsin fmul c radius compress fps save = Raise e).
Proof.
  intros Hin Hmiss.
  unfold VideoAnalysis.find_angle_intensity, VideoAnalysis.find_radius_intensity,
    VideoAnalysis.find_angle_intensity_compressed,
    VideoAnalysis.find_radius_intensity_compressed.
  repeat split.
  all: match goal with
       | |- exists e, Py.bind (VideoAnalysis.frame_loop _ _ _ ?fi) _ = _ =>
           destruct (@frame_loop_needs_every_centre hough_circles c fps fi fr
                       Hin Hmiss) as [e He];
           exists e; rewrite He; reflexivity
       end.
Qed.

Lemma polar_functions_need_every_centre_witness :
  (exists e, VideoAnalysis.find_angle_intensity Example.even_height_detector
               Example.cos_deg Example.sin_deg Example.times
               Example.odd_middle 2 1 false = Raise e)
  /\ (exists e, VideoAnalysis.find_radius_intensity Example.even_height_detector
                  Example.cos_deg Example.sin_deg Example.times
                  Example.odd_middle 2 1 false = Raise e)
  /\ (exists e, VideoAnalysis.find_angle_intensity_compressed
                  Example.even_height_detector
                  Example.cos_deg Example.sin_deg Example.times
                  Example.odd_middle 2 2 1 false = Raise e)
  /\ (exists e, VideoAnalysis.find_radius_intensity_compressed
                  Example.even_height_detector
                  Example.cos_deg Example.sin_deg Example.times
                  Example.odd_middle 2 2 1 false = Raise e).
Proof.
  apply (@polar_functions_need_every_centre Example.even_height_detector
           Example.cos_deg Example.sin_deg Example.times Example.odd_middle
           2 2 1 false (Example.ramp 3 2)).
  - right. left. reflexivity.
  - reflexivity.
Defined.

(** ** Edge cases of the analysis functions *)

Section EdgeCases.

Import VideoAnalysis.

Lemma range_nonempty (a b : Z) :
  a < b -> exists rest, Py.range a b = a :: rest.
Proof.
  intros H. unfold Py.range.
  replace (Z.to_nat (b - a)) with (S (Z.to_nat (b - a - 1))) by lia.
  rewrite <- cons_seq. cbn [map]. eexists. f_equal. lia.
Qed.

Lemma range_empty (a b : Z) : b <= a -> Py.range a b = [].
Proof.
  intros H. unfold Py.range.
  replace (Z.to_nat (b - a)) with 0%nat by lia. reflexivity.
Qed.

Lemma for_if_append_zero (B : Type) (body : Z -> result B) (a b : Z) :
  a < b ->
  Py.for_if_append (Py.divisible 0) body (Py.range a b)
  = Raise ZeroDivisionError.
Proof.
  intros H. destruct (range_nonempty H) as [rest ->]. reflexivity.
Qed.

Lemma filter_multiple_one (xs : list Z) : filter (multiple 1) xs = xs.
Proof.
  induction xs as [|a rest IH]; [reflexivity|].
  simpl. unfold multiple at 1. rewrite Z.mod_1_r. simpl. rewrite IH.
  reflexivity.
Qed.

Lemma for_if_append_one (B : Type) (body : Z -> result B) (xs : list Z) :
  Py.for_if_append (Py.divisible 1) body xs = Py.for_append body xs.
Proof.
  rewrite (@for_if_append_filter _ _ body _ _
             (@divisible_multiple 1 ltac:(discriminate))).
  rewrite filter_multiple_one. reflexivity.
Qed.

End EdgeCases.

(** With [compress = 0] the compressed functions divide by zero at the
    first index they test: on every frame for the angular profile, on a
    frame with at least one row and one column for the row and column
    profiles, and for a maximum radius of at least 2 for the radial one. *)
Theorem compress_zero_raises (fcos fsin : Z -> Q) (fmul : Z -> Q -> Q)
    (fr : VideoAnalysis.Frame) (x y radius height : Z) :
  (0 < VideoAnalysis.shape0 fr)%nat -> (0 < VideoAnalysis.shape1 fr)%nat ->
  2 <= radius ->
  VideoAnalysis.y_array_one_frame_compressed 0 fr = Raise ZeroDivisionError
  /\ VideoAnalysis.x_array_one_frame_compressed 0 fr = Raise ZeroDivisionError
  /\ VideoAnalysis.angle_frame_compressed fcos fsin fmul 0 radius height fr x y
     = Raise ZeroDivisionError
  /\ VideoAnalysis.radius_frame_compressed fcos fsin fmul 0 radius height fr x y
     = Raise ZeroDivisionError.
Proof.
  intros H0 H1 Hr.
  unfold VideoAnalysis.y_array_one_frame_compressed,
    VideoAnalysis.x_array_one_frame_compressed,
    VideoAnalysis.angle_frame_compressed, VideoAnalysis.radius_frame_compressed.
  repeat split; apply for_if_append_zero; lia.
Qed.

Lemma compress_zero_raises_witness :
  VideoAnalysis.y_array_one_frame_compressed 0 (Example.ramp 3 3)
  = Raise ZeroDivisionError
  /\ VideoAnalysis.x_array_one_frame_compressed 0 (Example.ramp 3 3)
     = Raise ZeroDivisionError
  /\ VideoAnalysis.angle_frame_compressed Example.cos_deg Example.sin_deg
       Example.times 0 2 3 (Example.ramp 3 3) 1 1
     = Raise ZeroDivisionError
  /\ VideoAnalysis.radius_frame_compressed Example.cos_deg Example.sin_deg
       Example.times 0 2 3 (Example.ramp 3 3) 1 1
     = Raise ZeroDivisionError.
Proof.
  apply (@compress_zero_raises Example.cos_deg Example.sin_deg Example.times
           (Example.ramp 3 3) 1 1 2 3); simpl; lia.
Defined.

(** With a maximum radius of 1 or less no ray has a sample: the angular
    profile divides by zero ([sum(intensity)/len(intensity)] on an empty
    list), while the radial profile is the empty list. *)
Theorem radius_below_two (fcos fsin : Z -> Q) (fmul : Z -> Q -> Q)
    (fr : VideoAnalysis.Frame) (x y radius height compress : Z) :
  radius <= 1 ->
  VideoAnalysis.angle_frame fcos fsin fmul radius height fr x y
  = Raise ZeroDivisionError
  /\ VideoAnalysis.radius_frame fcos fsin fmul radius height fr x y = Ok []
  /\ VideoAnalysis.radius_frame_compressed fcos fsin fmul compress radius
       height fr x y = Ok [].
Proof.
  intros Hr.
  unfold VideoAnalysis.angle_frame, VideoAnalysis.radius_frame,
    VideoAnalysis.radius_frame_compressed.
  rewrite (@range_empty 1 radius Hr).
  split; [|split; reflexivity].
  rewrite (@range_cons 360 ltac:(lia)). cbn [Py.for_append].
  unfold VideoAnalysis.ray_average at 1.
  rewrite (@range_empty 1 radius Hr). reflexivity.
Qed.

Lemma radius_below_two_witness :
  VideoAnalysis.angle_frame Example.cos_deg Example.sin_deg Example.times
    1 3 (Example.ramp 3 3) 1 1
  = Raise ZeroDivisionError
  /\ VideoAnalysis.radius_frame Example.cos_deg Example.sin_deg Example.times
       1 3 (Example.ramp 3 3) 1 1 = Ok []
  /\ VideoAnalysis.radius_frame_compressed Example.cos_deg Example.sin_deg
       Example.times 5 1 3 (Example.ramp 3 3) 1 1 = Ok [].
Proof.
  apply (@radius_below_two Example.cos_deg Example.sin_deg Example.times
           (Example.ramp 3 3) 1 1 1 3 5). lia.
Defined.

(** With [compress = 1] the compressed profiles are the uncompressed
    ones. *)
Theorem compress_one_is_uncompressed (fcos fsin : Z -> Q) (fmul : Z -> Q -> Q)
    (fr : VideoAnalysis.Frame) (x y radius height : Z) :
  VideoAnalysis.y_array_one_frame_compressed 1 fr
  = Ok (VideoAnalysis.y_array_one_frame fr)
  /\ VideoAnalysis.x_array_one_frame_compressed 1 fr
     = Ok (VideoAnalysis.x_array_one_frame fr)
  /\ VideoAnalysis.angle_frame_compressed fcos fsin fmul 1 radius height fr x y
     = VideoAnalysis.angle_frame fcos fsin fmul radius height fr x y
  /\ VideoAnalysis.radius_frame_compressed fcos fsin fmul 1 radius height fr x y
     = VideoAnalysis.radius_frame fcos fsin fmul radius height fr x y.
Proof.
  unfold VideoAnalysis.y_array_one_frame_compressed,
    VideoAnalysis.x_array_one_frame_compressed,
    VideoAnalysis.angle_frame_compressed, VideoAnalysis.radius_frame_compressed.
  rewrite !for_if_append_one, !for_append_pure. repeat split.
Qed.

(** On a clip that yields no frame the row/column functions raise
    [IndexError] at [len(x_total_array[0])], while [find_RGB_Hues] and the
    polar functions return empty tables. *)
Theorem empty_clip (hough_circles : VideoAnalysis.Frame -> list Coord)
    (fcos fsin : Z -> Q) (fmul : Z -> Q -> Q) (c : VideoAnalysis.Clip)
    (radius compress : Z) (fps : Q) (save : bool) :
  (forall rate, VideoAnalysis.iter_frames c rate = []) ->
  VideoAnalysis.find_xy_intensities c save fps = Raise IndexError
  /\ VideoAnalysis.find_xy_intensities_compressed c compress save fps
     = Raise IndexError
  /\ VideoAnalysis.returned (VideoAnalysis.find_RGB_Hues c save fps)
     = ([], [], [])
  /\ (exists o, VideoAnalysis.find_angle_intensity hough_circles fcos fsin fmul
                  c radius fps save = Ok o
                /\ VideoAnalysis.returned o = [])
  /\ (exists o, VideoAnalysis.find_radius_intensity hough_circles fcos fsin fmul
                  c radius fps save = Ok o
                /\ VideoAnalysis.returned o = []).
Proof.
  intros H.
  unfold VideoAnalysis.find_xy_intensities,
    VideoAnalysis.find_xy_intensities_compressed, VideoAnalysis.find_RGB_Hues,
    VideoAnalysis.find_angle_intensity, VideoAnalysis.find_radius_intensity,
    VideoAnalysis.frame_loop, VideoAnalysis.find_center_circle_pos.
  rewrite !H. cbn.
  repeat split; eexists; split; reflexivity.
Qed.

Lemma empty_clip_witness :
  VideoAnalysis.find_xy_intensities Example.no_frames true 1 = Raise IndexError
  /\ VideoAnalysis.find_xy_intensities_compressed Example.no_frames 4 true 1
     = Raise IndexError
  /\ VideoAnalysis.returned (VideoAnalysis.find_RGB_Hues Example.no_frames true 1)
     = ([], [], [])
  /\ (exists o, VideoAnalysis.find_angle_intensity Example.even_height_detector
                  Example.cos_deg Example.sin_deg Example.times
                  Example.no_frames 2 1 true = Ok o
                /\ VideoAnalysis.returned o = [])
  /\ (exists o, VideoAnalysis.find_radius_intensity Example.even_height_detector
                  Example.cos_deg Example.sin_deg Example.times
                  Example.no_frames 2 1 true = Ok o
                /\ VideoAnalysis.returned o = []).
Proof.
  apply (@empty_clip Example.even_height_detector Example.cos_deg
           Example.sin_deg Example.times Example.no_frames 2 4 1 true).
  intros rate. reflexivity.
Defined.



Section BarOverrun.

Import VideoAnalysis.


End BarOverrun.



(** ** Compressed polar profiles as sub-samples *)

Section PolarStride.

Import VideoAnalysis.

Variable B : Type.
Variable body : Z -> result B.

Lemma for_append_select (xs : list Z) (l : list B) (g : nat -> nat) (m : nat) :
  Py.for_append body xs = Ok l ->
  (forall k, (k < m)%nat -> (g k < length xs)%nat) ->
  exists l',
    Py.for_append body (map (fun k => nth (g k) xs 0) (seq 0 m)) = Ok l'
    /\ length l' = m
    /\ forall k, (k < m)%nat -> nth_error l' k = nth_error l (g k).
Proof.
  intros Hl Hg.
  destruct (@for_append_total _ _ body
              (map (fun k => nth (g k) xs 0) (seq 0 m))) as [l' Hl'].
  { intros v Hv. apply in_map_iff in Hv. destruct Hv as (k & <- & Hk).
    apply in_seq in Hk. apply (for_append_in _ _ _ Hl).
    apply nth_In. apply Hg. lia. }
  exists l'. split; [exact Hl'|]. split.
  - rewrite (for_append_length _ _ Hl'), length_map, length_seq. reflexivity.
  - intros k Hk.
    assert (nth_error (map (fun k => nth (g k) xs 0) (seq 0 m)) k
            = Some (nth (g k) xs 0)) as Hsub.
    { rewrite nth_error_map.
      rewrite (nth_error_nth' _ 0%nat) by (rewrite length_seq; lia).
      rewrite seq_nth by lia. reflexivity. }
    destruct (for_append_each _ _ Hl' _ Hsub) as (v' & Hv' & ->).
    destruct (for_append_each _ _ Hl (g k)
                (nth_error_nth' xs 0 (Hg k Hk))) as (v & Hv & ->).
    rewrite Hv in Hv'. injection Hv' as <-. reflexivity.
Qed.

Lemma range_nth (a b : Z) (j : nat) :
  (j < Z.to_nat (b - a))%nat -> nth j (Py.range a b) 0 = a + Z.of_nat j.
Proof.
  intros H. unfold Py.range.
  rewrite (nth_indep _ 0 (a + Z.of_nat 0)) by (rewrite length_map, length_seq; lia).
  rewrite (map_nth (fun k => a + Z.of_nat k)), seq_nth by lia. reflexivity.
Qed.

(** Over [range(0, n)]: entry [k] of the guarded loop is entry
    [k*compress] of the plain loop. *)
Lemma stride_of_loop_from_zero (n : nat) (c : Z) (l : list B) :
  1 <= c ->
  Py.for_append body (Py.range 0 (Z.of_nat n)) = Ok l ->
  exists l',
    Py.for_if_append (Py.divisible c) body (Py.range 0 (Z.of_nat n)) = Ok l'
    /\ forall k, nth_error l' k = nth_error l (k * Z.to_nat c).
Proof.
  intros Hc Hl.
  assert (c <> 0) as Hnz by lia.
  pose proof (@ceil_div_nonneg c (Z.of_nat n) Hc (Nat2Z.is_nonneg n)) as Hq.
  set (m := Z.to_nat (ceil_div (Z.of_nat n) c)).
  assert (forall k, (k < m)%nat -> Z.of_nat k * c < Z.of_nat n) as Hin.
  { intros k Hk. apply (@ceil_div_lt (Z.of_nat k) (Z.of_nat n) c Hc). lia. }
  destruct (@for_append_select (Py.range 0 (Z.of_nat n)) l
              (fun k => (k * Z.to_nat c)%nat) m Hl) as (l' & Hl' & Hlen & Hnth).
  { intros k Hk. rewrite range_length. specialize (Hin k Hk). lia. }
  exists l'. split.
  - rewrite (@for_if_append_filter _ _ body _ _ (divisible_multiple Hnz)).
    rewrite (filter_range_stride n Hc). rewrite <- Hl'. f_equal.
    unfold Py.range at 1. rewrite map_map.
    replace (Z.to_nat (ceil_div (Z.of_nat n) c - 0)) with m by lia.
    apply map_ext_in. intros k Hk. apply in_seq in Hk.
    rewrite range_nth by (specialize (Hin k ltac:(lia)); lia). lia.
  - intros k. destruct (Nat.lt_ge_cases k m) as [Hk|Hk].
    + apply Hnth. exact Hk.
    + replace (nth_error l' k) with (@None B)
        by (symmetry; apply nth_error_None; lia).
      symmetry. apply nth_error_None.
      rewrite (for_append_length _ _ Hl), range_length.
      assert (~ Z.of_nat k < ceil_div (Z.of_nat n) c) as Hk' by lia.
      rewrite (@ceil_div_lt (Z.of_nat k) (Z.of_nat n) c Hc) in Hk'. lia.
Qed.

Lemma filter_range_from_one (c R : Z) :
  1 <= c -> 1 <= R ->
  filter (multiple c) (Py.range 1 R)
  = map (fun k => k * c) (Py.range 1 (ceil_div R c)).
Proof.
  intros Hc HR.
  pose proof (@filter_range_stride c (Z.to_nat R) Hc) as H.
  replace (Z.of_nat (Z.to_nat R)) with R in H by lia.
  assert (1 <= ceil_div R c) as Hq.
  { apply Z.lt_pred_le. apply (@ceil_div_lt 0 R c Hc). lia. }
  rewrite (range_cons HR), (range_cons Hq) in H. cbn [filter map] in H.
  unfold multiple at 1 in H. rewrite Z.mod_0_l in H by lia.
  cbn [Z.eqb] in H. injection H as H. exact H.
Qed.

(** Over [range(1, R)]: entry [k] of the guarded loop is the entry for
    [(k+1)*compress], at position [(k+1)*compress - 1] of the plain loop. *)
Lemma stride_of_loop_from_one (R c : Z) (l : list B) :
  1 <= c ->
  Py.for_append body (Py.range 1 R) = Ok l ->
  exists l',
    Py.for_if_append (Py.divisible c) body (Py.range 1 R) = Ok l'
    /\ forall k, nth_error l' k = nth_error l ((k + 1) * Z.to_nat c - 1).
Proof.
  intros Hc Hl.
  assert (c <> 0) as Hnz by lia.
  rewrite (@for_if_append_filter _ _ body _ _ (divisible_multiple Hnz)).
  destruct (Z.lt_ge_cases R 1) as [HR|HR].
  - rewrite (@range_empty 1 R ltac:(lia)) in *. simpl in Hl.
    injection Hl as <-. exists []. split; [reflexivity|].
    intros k. destruct k, ((0 + 1) * Z.to_nat c - 1)%nat; try reflexivity.
    all: destruct ((S k + 1) * Z.to_nat c - 1)%nat; reflexivity.
  - assert (1 <= ceil_div R c) as Hq.
    { apply Z.lt_pred_le. apply (@ceil_div_lt 0 R c Hc). lia. }
    set (m := Z.to_nat (ceil_div R c - 1)).
    assert (forall k, (k < m)%nat -> (Z.of_nat k + 1) * c < R) as Hin.
    { intros k Hk. apply (@ceil_div_lt (Z.of_nat k + 1) R c Hc). lia. }
    destruct (@for_append_select (Py.range 1 R) l
                (fun k => ((k + 1) * Z.to_nat c - 1)%nat) m Hl)
      as (l' & Hl' & Hlen & Hnth).
    { intros k Hk. rewrite range_length. specialize (Hin k Hk). nia. }
    exists l'. split.
    + rewrite (filter_range_from_one Hc HR). rewrite <- Hl'. f_equal.
      unfold Py.range at 1. rewrite map_map. fold m.
      apply map_ext_in. intros k Hk. apply in_seq in Hk.
      rewrite range_nth by (specialize (Hin k ltac:(lia)); nia). nia.
    + intros k. destruct (Nat.lt_ge_cases k m) as [Hk|Hk].
      * apply Hnth. exact Hk.
      * replace (nth_error l' k) with (@None B)
          by (symmetry; apply nth_error_None; lia).
        symmetry. apply nth_error_None.
        rewrite (for_append_length _ _ Hl), range_length.
        assert (~ Z.of_nat k + 1 < ceil_div R c) as Hk' by lia.
        rewrite (@ceil_div_lt (Z.of_nat k + 1) R c Hc) in Hk'. nia.
Qed.

End PolarStride.

(** Whenever the uncompressed angular profile of a frame can be computed,
    so can the compressed one for any [compress >= 1], and its entry [k] is
    entry [k*compress] of the uncompressed profile. *)
Theorem angular_compression_subsamples (fcos fsin : Z -> Q) (fmul : Z -> Q -> Q)
    (fr : VideoAnalysis.Frame) (x y radius height compress : Z) (l : list Q) :
  1 <= compress ->
  VideoAnalysis.angle_frame fcos fsin fmul radius height fr x y = Ok l ->
  exists l',
    VideoAnalysis.angle_frame_compressed fcos fsin fmul compress radius height
      fr x y = Ok l'
    /\ forall k, nth_error l' k = nth_error l (k * Z.to_nat compress).
Proof.
  intros Hc Hl. unfold VideoAnalysis.angle_frame_compressed.
  unfold VideoAnalysis.angle_frame in Hl.
  change 360 with (Z.of_nat 360) in *.
  apply (stride_of_loop_from_zero _ _ Hc Hl).
Qed.

Lemma angular_compression_subsamples_witness :
  exists l l',
    VideoAnalysis.angle_frame Example.cos_deg Example.sin_deg Example.times
      2 3 (Example.ramp 3 3) 1 1 = Ok l
    /\ VideoAnalysis.angle_frame_compressed Example.cos_deg Example.sin_deg
         Example.times 7 2 3 (Example.ramp 3 3) 1 1 = Ok l'
    /\ forall k, nth_error l' k = nth_error l (k * Z.to_nat 7).
Proof.
  destruct (@angle_frame_length Example.cos_deg Example.sin_deg Example.times
              (Example.ramp 3 3) 1 1 2 3 ltac:(lia) unit_ring_samples_ok)
    as [l [Hl _]].
  destruct (@angular_compression_subsamples Example.cos_deg Example.sin_deg
              Example.times (Example.ramp 3 3) 1 1 2 3 7 l ltac:(lia) Hl)
    as [l' [Hl' Hk]].
  exists l, l'. split; [exact Hl|]. split; [exact Hl' | exact Hk].
Defined.

(** The same for the radial profile, whose first entry is for radius 1:
    entry [k] of the compressed profile is the entry for radius
    [(k+1)*compress], at position [(k+1)*compress - 1] of the uncompressed
    profile. *)
Theorem radial_compression_subsamples (fcos fsin : Z -> Q) (fmul : Z -> Q -> Q)
    (fr : VideoAnalysis.Frame) (x y radius height compress : Z) (l : list Q) :
  1 <= compress ->
  VideoAnalysis.radius_frame fcos fsin fmul radius height fr x y = Ok l ->
  exists l',
    VideoAnalysis.radius_frame_compressed fcos fsin fmul compress radius height
      fr x y = Ok l'
    /\ forall k,
         nth_error l' k = nth_error l ((k + 1) * Z.to_nat compress - 1).
Proof.
  intros Hc Hl. unfold VideoAnalysis.radius_frame_compressed.
  unfold VideoAnalysis.radius_frame in Hl.
  apply (@stride_of_loop_from_one _ _ radius compress l Hc Hl).
Qed.

(** On an 11 by 11 frame with the centre in the middle, every sample up to
    radial step 5 is inside the frame. *)
Lemma wide_ring_samples_ok (i r : Z) :
  0 <= i < 360 -> 1 <= r < 6 ->
  exists v,
    VideoAnalysis.sample Example.cos_deg Example.sin_deg Example.times
      (Example.ramp 11 11) 5 5 11 i r = Ok v.
Proof.
  intros Hi Hr.
  pose proof (@range_forallb
    (fun i => forallb
       (fun r => match VideoAnalysis.sample Example.cos_deg Example.sin_deg
                         Example.times (Example.ramp 11 11) 5 5 11 i r with
                 | Ok _ => true
                 | Raise _ => false
                 end) (Py.range 1 6))
    0 360 ltac:(vm_compute; reflexivity) i Hi) as H.
  cbv beta in H. rewrite forallb_forall in H.
  specialize (H r (proj2 (range_In 1 6 r) Hr)).
  destruct (VideoAnalysis.sample Example.cos_deg Example.sin_deg Example.times
              (Example.ramp 11 11) 5 5 11 i r) as [v|e]; [|discriminate].
  exists v. reflexivity.
Qed.

Lemma radial_compression_subsamples_witness :
  exists l l',
    VideoAnalysis.radius_frame Example.cos_deg Example.sin_deg Example.times
      6 11 (Example.ramp 11 11) 5 5 = Ok l
    /\ VideoAnalysis.radius_frame_compressed Example.cos_deg Example.sin_deg
         Example.times 2 6 11 (Example.ramp 11 11) 5 5 = Ok l'
    /\ (forall k, nth_error l' k = nth_error l ((k + 1) * Z.to_nat 2 - 1))
    /\ Z.of_nat (length l) = 5
    /\ Z.of_nat (length l') = 2.
Proof.
  destruct (@radius_frame_length Example.cos_deg Example.sin_deg Example.times
              (Example.ramp 11 11) 5 5 6 11 ltac:(lia) wide_ring_samples_ok)
    as [l [Hl Hlen]].
  destruct (@radial_compression_subsamples Example.cos_deg Example.sin_deg
              Example.times (Example.ramp 11 11) 5 5 6 11 2 l ltac:(lia) Hl)
    as [l' [Hl' Hk]].
  destruct (@radius_frame_compressed_length Example.cos_deg Example.sin_deg
              Example.times (Example.ramp 11 11) 5 5 6 11 2
              ltac:(lia) ltac:(lia) wide_ring_samples_ok)
    as [l'' [Hl'' Hlen'']].
  exists l, l'. split; [exact Hl|]. split; [exact Hl'|].
  split; [exact Hk|]. split; [exact Hlen|].
  rewrite Hl' in Hl''. injection Hl'' as <-. exact Hlen''.
Defined.

(** ** When sampling succeeds *)

Section CircleFits.

Import VideoAnalysis.

Variable fcos fsin : Z -> Q.
Variable fmul : Z -> Q -> Q.
Variable fr : Frame.
Variables x y radius : Z.

Hypothesis radius_ge_2 : 2 <= radius.
Hypothesis offsets_bounded :
  forall i r, 0 <= i < 360 -> 1 <= r < radius ->
  - r <= Py.int (fmul r (fcos i)) <= r /\ - r <= Py.int (fmul r (fsin i)) <= r.
Hypothesis fits_x : radius - 1 <= x /\ x + (radius - 1) < Z.of_nat (shape1 fr).
Hypothesis fits_y : radius - 1 <= y /\ y + (radius - 1) < Z.of_nat (shape0 fr).

Lemma fitting_samples_ok (i r : Z) :
  0 <= i < 360 -> 1 <= r < radius ->
  exists v,
    sample fcos fsin fmul fr x y (Z.of_nat (shape0 fr)) i r = Ok v.
Proof.
  intros Hi Hr. destruct (offsets_bounded Hi Hr) as [Hc Hs].
  unfold sample, intensity_data, sample_coord, offset_coord, clamp_y,
    frame_get.
  destruct (y + Py.int (fmul r (fsin i)) >=? Z.of_nat (shape0 fr)) eqn:E.
  - rewrite Z.geb_leb in E. apply Z.leb_le in E. lia.
  - rewrite np_index_inside by lia. cbn [Py.bind].
    rewrite np_index_inside by lia. cbn [Py.bind].
    eexists. reflexivity.
Qed.

End CircleFits.

(** When the disc of radius [R - 1] around the centre lies inside the
    frame, and the offsets [int(r*cos)] and [int(r*sin)] are at most [r] in
    absolute value, no sample raises: both profiles of the frame are
    computed. *)
Theorem fitting_circle_is_sampled (fcos fsin : Z -> Q) (fmul : Z -> Q -> Q)
    (fr : VideoAnalysis.Frame) (x y radius : Z) :
  2 <= radius ->
  (forall i r, 0 <= i < 360 -> 1 <= r < radius ->
     - r <= Py.int (fmul r (fcos i)) <= r
     /\ - r <= Py.int (fmul r (fsin i)) <= r) ->
  radius - 1 <= x /\ x + (radius - 1) < Z.of_nat (VideoAnalysis.shape1 fr) ->
  radius - 1 <= y /\ y + (radius - 1) < Z.of_nat (VideoAnalysis.shape0 fr) ->
  (exists l, VideoAnalysis.angle_frame fcos fsin fmul radius
               (Z.of_nat (VideoAnalysis.shape0 fr)) fr x y = Ok l)
  /\ (exists l, VideoAnalysis.radius_frame fcos fsin fmul radius
                  (Z.of_nat (VideoAnalysis.shape0 fr)) fr x y = Ok l).
Proof.
  intros Hr Hb Hx Hy.
  pose proof (@fitting_samples_ok fcos fsin fmul fr x y radius Hb Hx Hy) as Hs.
  destruct (@angle_frame_length fcos fsin fmul fr x y radius _ Hr Hs)
    as [l [Hl _]].
  destruct (@radius_frame_length fcos fsin fmul fr x y radius _ Hr Hs)
    as [l2 [Hl2 _]].
  split; [exists l; exact Hl | exists l2; exact Hl2].
Qed.

Lemma unit_offsets_bounded (i r : Z) :
  0 <= i < 360 -> 1 <= r < 2 ->
  - r <= Py.int (Example.times r (Example.cos_deg i)) <= r
  /\ - r <= Py.int (Example.times r (Example.sin_deg i)) <= r.
Proof.
  intros Hi Hr. assert (r = 1) as -> by lia.
  pose proof (@range_forallb
    (fun i => (-1 <=? Py.int (Example.times 1 (Example.cos_deg i)))
              && (Py.int (Example.times 1 (Example.cos_deg i)) <=? 1)
              && (-1 <=? Py.int (Example.times 1 (Example.sin_deg i)))
              && (Py.int (Example.times 1 (Example.sin_deg i)) <=? 1))
    0 360 ltac:(vm_compute; reflexivity) i Hi) as H.
  cbv beta in H. rewrite !andb_true_iff, !Z.leb_le in H. lia.
Qed.

Lemma fitting_circle_is_sampled_witness :
  (exists l, VideoAnalysis.angle_frame Example.cos_deg Example.sin_deg
               Example.times 2
               (Z.of_nat (VideoAnalysis.shape0 (Example.ramp 3 3)))
               (Example.ramp 3 3) 1 1 = Ok l)
  /\ (exists l, VideoAnalysis.radius_frame Example.cos_deg Example.sin_deg
                  Example.times 2
                  (Z.of_nat (VideoAnalysis.shape0 (Example.ramp 3 3)))
                  (Example.ramp 3 3) 1 1 = Ok l).
Proof.
  apply (@fitting_circle_is_sampled Example.cos_deg Example.sin_deg
           Example.times (Example.ramp 3 3) 1 1 2).
  - lia.
  - exact unit_offsets_bounded.
  - simpl. lia.
  - simpl. lia.
Defined.

(** ** Averages of a frame of one colour *)

Section ConstantColour.

Import VideoAnalysis.

Lemma sum_constant (T : Type) (l : list T) (q acc : Q) :
  (fold_left Qplus (map (fun _ => q) l) acc
   == acc + inject_Z (Z.of_nat (length l)) * q)%Q.
Proof.
  revert acc. induction l as [|a l IH]; intros acc.
  - simpl. ring.
  - cbn [map fold_left length]. rewrite IH.
    rewrite Nat2Z.inj_succ. unfold Z.succ. rewrite inject_Z_plus. ring.
Qed.

Lemma mean_constant (T : Type) (l : list T) (q : Q) :
  l <> [] -> (Py.mean (map (fun _ => q) l) == q)%Q.
Proof.
  intros Hne. unfold Py.mean, Py.sum.
  rewrite sum_constant, length_map.
  assert (~ (inject_Z (Z.of_nat (length l)) == 0)%Q) as Hn.
  { destruct l; [contradiction|]. unfold Qeq. simpl. lia. }
  field. exact Hn.
Qed.

(** On a frame with at least one pixel whose channel [ch] holds the same
    value everywhere, the average computed for that channel is that
    value. *)
Lemma constant_colour_mean (fr : Frame) (ch : nat) (v : Z) :
  (0 < shape0 fr)%nat -> (0 < shape1 fr)%nat ->
  (forall row col, (row < shape0 fr)%nat -> (col < shape1 fr)%nat ->
     px fr row col ch = v) ->
  (rgb_values fr ch == inject_Z v)%Q.
Proof.
  intros H0 H1 Hpx. unfold rgb_values.
  rewrite (map_ext_in _ (fun _ : nat =>
             Py.mean (map (fun _ : nat => inject_Z v) (seq 0 (shape0 fr))))).
  - rewrite mean_constant by (destruct (shape1 fr); [lia | discriminate]).
    apply mean_constant. destruct (shape0 fr); [lia | discriminate].
  - intros col Hcol. apply in_seq in Hcol. f_equal.
    apply map_ext_in. intros row Hrow. apply in_seq in Hrow.
    unfold val. rewrite Hpx by lia. reflexivity.
Qed.

Lemma constant_colour_mean_witness :
  (rgb_values (mkFrame 4 6 (fun _ _ ch => nth ch [50; 100; 200]%Z 0%Z)) 2
   == inject_Z 200)%Q.
Proof.
  apply (@constant_colour_mean
           (mkFrame 4 6 (fun _ _ ch => nth ch [50; 100; 200] 0)) 2 200).
  - simpl. lia.
  - simpl. lia.
  - intros row col _ _. reflexivity.
Defined.

(** The name of a saved table is the prefix followed by the file name
    without its last four characters. *)
Lemma stem_drops_extension (base ext : string) :
  String.length ext = 4%nat -> stem (String.append base ext) = base.
Proof.
  intros H. unfold stem.
  induction base as [|a base IH].
  - simpl. rewrite H. simpl. destruct ext; reflexivity.
  - cbn [String.append String.length].
    assert (String.length (String.append base ext)
            = (String.length base + 4)%nat) as Hlen.
    { clear IH. induction base as [|b base IHb]; simpl; [exact H|].
      rewrite IHb. reflexivity. }
    rewrite Hlen in *.
    replace (S (String.length base + 4) - 4)%nat
      with (S (String.length base + 4 - 4)) by lia.
    cbn [String.substring]. rewrite IH. reflexivity.
Qed.

Lemma stem_drops_extension_witness :
  stem (String.append "eclipse" ".mp4") = "eclipse"%string.
Proof.
  apply (@stem_drops_extension "eclipse" ".mp4"). reflexivity.
Defined.

End ConstantColour.

Lemma mask_blacks_outside_witness :
  Stabilization.mask 480 640 (fun row col _ => Z.of_nat (row + col))
    0 80 440 440 10 260 0 = 0.
Proof.
  apply (@mask_blacks_outside 480 640 (fun row col _ => Z.of_nat (row + col))
           0 80 440 440 10 260 0); simpl; lia.
Defined.
